(** * wellness/db.py: the local SQLite store of fitness plans

    A shallow embedding of [src/wellness/db.py] and of the parts of the
    Python [datetime] module and of SQLite that it calls, followed by the
    properties of the write path ([save_plan]), of the read path
    ([get_plans]) and of the schema initializer ([init_db]).

    The database file is the state: a call is a function from the content
    of the file to its result, a value or a raised error, and the new
    content.  The two clocks the module reads (UTC for [created_at], local
    time for the default day) are the environment of a call. *)

From Stdlib Require Import ZArith List String Ascii Bool Lia.
From Stdlib Require Import Permutation Sorted.
Import ListNotations.

Local Open Scope Z_scope.
Local Open Scope string_scope.

(* ================================================================== *)
(** ** Python's [datetime], as far as the module uses it *)
(* ================================================================== *)

Module PyDatetime.

(** A [datetime.datetime] value: the calendar fields of the object.  The
    time zone is not a field here: [datetime.now(timezone.utc)] is always
    in UTC, [datetime.now()] is always naive local time. *)
Record datetime : Type := mkDatetime {
  year : Z;
  month : Z;
  day : Z;
  hour : Z;
  minute : Z;
  second : Z;
  microsecond : Z
}.

Definition is_leap (y : Z) : bool :=
  (y mod 4 =? 0)%Z && (negb (y mod 100 =? 0)%Z || (y mod 400 =? 0)%Z).

(** [_DAYS_IN_MONTH], with the leap-year case of [_days_in_month]. *)
Definition days_in_month (y m : Z) : Z :=
  if (m =? 2)%Z then (if is_leap y then 29 else 28)
  else if (m =? 4)%Z || (m =? 6)%Z || (m =? 9)%Z || (m =? 11)%Z then 30
  else 31.

(** The range checks of the [datetime] constructor: a value that exists
    satisfies them. *)
Definition valid (d : datetime) : Prop :=
  1 <= year d <= 9999 /\
  1 <= month d <= 12 /\
  1 <= day d <= days_in_month (year d) (month d) /\
  0 <= hour d <= 23 /\
  0 <= minute d <= 59 /\
  0 <= second d <= 59 /\
  0 <= microsecond d <= 999999.

Definition validb (d : datetime) : bool :=
  (1 <=? year d)%Z && (year d <=? 9999)%Z &&
  (1 <=? month d)%Z && (month d <=? 12)%Z &&
  (1 <=? day d)%Z && (day d <=? days_in_month (year d) (month d))%Z &&
  (0 <=? hour d)%Z && (hour d <=? 23)%Z &&
  (0 <=? minute d)%Z && (minute d <=? 59)%Z &&
  (0 <=? second d)%Z && (second d <=? 59)%Z &&
  (0 <=? microsecond d)%Z && (microsecond d <=? 999999)%Z.

(** *** Formatting: [isoformat] *)

(** The character of a decimal digit. *)
Definition digit (d : Z) : ascii := ascii_of_N (48 + Z.to_N d).

(** The [k] low decimal digits of [n], most significant first. *)
Fixpoint digits (k : nat) (n : Z) : string :=
  match k with
  | O => EmptyString
  | S k' => String (digit ((n / 10 ^ Z.of_nat k') mod 10)) (digits k' n)
  end.

(** The number of decimal digits of a natural number ([0] has one). *)
Fixpoint ndigits_fuel (fuel : nat) (n : Z) : nat :=
  match fuel with
  | O => 1
  | S f => if (n <? 10)%Z then 1%nat else S (ndigits_fuel f (n / 10))
  end.

Definition ndigits (n : Z) : nat := ndigits_fuel (Z.to_nat (Z.log2 n)) n.

(** ["%0wd" % n] for [0 <= n]: the decimal digits of [n], padded with
    zeros on the left to at least [w] characters. *)
Definition fmt_0d (w : nat) (n : Z) : string := digits (Nat.max w (ndigits n)) n.

(** The end of [isoformat]: the microseconds, when they are not zero, and
    the offset of UTC. *)
Definition fraction (us : Z) : string :=
  (if (us =? 0)%Z then "" else "." ++ fmt_0d 6 us) ++ "+00:00".

(** [datetime.now(timezone.utc).isoformat()]: the date and the time
    separated by [T], then the microseconds and the offset. *)
Definition isoformat (d : datetime) : string :=
  fmt_0d 4 (year d) ++ "-" ++ fmt_0d 2 (month d) ++ "-" ++ fmt_0d 2 (day d)
  ++ "T" ++ fmt_0d 2 (hour d) ++ ":" ++ fmt_0d 2 (minute d) ++ ":"
  ++ fmt_0d 2 (second d) ++ fraction (microsecond d).

(** *** The day of the week: [strftime("%A")] *)

Definition days_before_year (y : Z) : Z :=
  let y1 := y - 1 in y1 * 365 + y1 / 4 - y1 / 100 + y1 / 400.

(** [_DAYS_BEFORE_MONTH], with the leap-day case of [_days_before_month]. *)
Definition days_before_month (y m : Z) : Z :=
  (match m with
   | 1 => 0 | 2 => 31 | 3 => 59 | 4 => 90 | 5 => 120 | 6 => 151
   | 7 => 181 | 8 => 212 | 9 => 243 | 10 => 273 | 11 => 304 | _ => 334
   end)
  + (if (2 <? m)%Z && is_leap y then 1 else 0).

Definition ymd2ord (y m d : Z) : Z :=
  days_before_year y + days_before_month y m + d.

Definition toordinal (d : datetime) : Z := ymd2ord (year d) (month d) (day d).

(** [weekday()]: Monday is 0, Sunday is 6. *)
Definition weekday (d : datetime) : Z := (toordinal d + 6) mod 7.

(** The full weekday names of the C locale, the locale of a Python process
    that never calls [setlocale] (the module does not), indexed as
    [weekday()] is. *)
Definition day_name (wd : Z) : string :=
  match wd with
  | 0 => "Monday"
  | 1 => "Tuesday"
  | 2 => "Wednesday"
  | 3 => "Thursday"
  | 4 => "Friday"
  | 5 => "Saturday"
  | _ => "Sunday"
  end.

(** [d.strftime("%A")]. *)
Definition strftime_A (d : datetime) : string := day_name (weekday d).

(** The seven names that [strftime("%A")] can give. *)
Definition weekday_names : list string :=
  ["Monday"; "Tuesday"; "Wednesday"; "Thursday"; "Friday"; "Saturday"; "Sunday"].

(** *** The calendar, counted day by day *)

(** What the weekday of a date is, said without the formulas above: the
    days are counted one year and one month after the other from Monday
    1 January of the year 1, and every seventh day is a Monday again. *)
Definition year_length (y : Z) : Z := if is_leap y then 366 else 365.

(** The days of the years [1 .. n]. *)
Fixpoint days_in_years (n : nat) : Z :=
  match n with
  | O => 0
  | S k => days_in_years k + year_length (Z.of_nat (S k))
  end.

(** The days of the months [1 .. n] of the year [y]. *)
Fixpoint days_in_months (y : Z) (n : nat) : Z :=
  match n with
  | O => 0
  | S k => days_in_months y k + days_in_month y (Z.of_nat (S k))
  end.

(** The days that went by from 1 January of the year 1 to the date. *)
Definition days_since_0001_01_01 (d : datetime) : Z :=
  days_in_years (Z.to_nat (year d - 1))
  + days_in_months (year d) (Z.to_nat (month d - 1))
  + (day d - 1).

(** The name of the day that comes [n] days after a Monday. *)
Definition name_after_monday (n : Z) : string :=
  nth (Z.to_nat (n mod 7)) weekday_names "".

(** Chronological order of two datetimes of one time zone: the order of
    their fields, the year first. *)
Definition lex (c c' : comparison) : comparison :=
  match c with Eq => c' | _ => c end.

Definition chrono_compare (a b : datetime) : comparison :=
  lex (year a ?= year b)%Z
 (lex (month a ?= month b)%Z
 (lex (day a ?= day b)%Z
 (lex (hour a ?= hour b)%Z
 (lex (minute a ?= minute b)%Z
 (lex (second a ?= second b)%Z
      (microsecond a ?= microsecond b)%Z))))).

End PyDatetime.

(* ================================================================== *)
(** ** SQLite, as far as the module uses it *)
(* ================================================================== *)

Module Sqlite.

(** One row of the table [fitness_plan] (the columns of the
    [CREATE TABLE] statement of [init_db]). *)
Record Row : Type := mkRow {
  id : Z;
  profile : string;
  plan_text : string;
  created_at : string;
  source : string;
  day_of_the_week : string
}.

(** The table: its rows in the order of the scan, and the entry of the
    table in [sqlite_sequence], the largest rowid it ever handed out (what
    [AUTOINCREMENT] keeps). *)
Record Table : Type := mkTable {
  rows : list Row;
  seq : Z
}.

(** The database file: the table [fitness_plan], when it exists. *)
Definition Db : Type := option Table.

Definition rows_of (db : Db) : list Row :=
  match db with Some t => rows t | None => [] end.

Definition seq_of (db : Db) : Z :=
  match db with Some t => seq t | None => 0 end.

(** A column of a [CREATE TABLE] statement. *)
Record Column : Type := mkColumn {
  col_name : string;
  col_type : string;
  col_primary_key : bool;
  col_autoincrement : bool;
  col_not_null : bool;
  col_default : option string
}.

(** The schema of a database file: its tables with their columns. *)
Definition Schema : Type := list (string * list Column).

(** The errors of the statements below; Python raises both as
    [sqlite3.OperationalError]. *)
Inductive Error : Type :=
| SQLITE_FULL
| no_such_table.

Inductive result (A : Type) : Type :=
| Ok (a : A)
| Raise (e : Error).
Arguments Ok {A} a.
Arguments Raise {A} e.

(** A call on the database file: the value it returns or the error it
    raises, and the file after it. *)
Definition M (A : Type) : Type := Db -> result A * Db.

Definition ret {A : Type} (a : A) : M A := fun db => (Ok a, db).

Definition bind {A B : Type} (m : M A) (k : A -> M B) : M B :=
  fun db =>
    match m db with
    | (Ok a, db') => k a db'
    | (Raise e, db') => (Raise e, db')
    end.

Notation "x <- m ;; k" := (bind m (fun x => k))
  (at level 61, m at next level, right associativity).
Notation "m ;; k" := (bind m (fun _ => k))
  (at level 61, right associativity).

(** The result of a call and the file after it. *)
Definition returned {A : Type} (m : M A) (db : Db) : result A := fst (m db).
Definition after {A : Type} (m : M A) (db : Db) : Db := snd (m db).

(** The largest rowid of a signed 64-bit integer. *)
Definition MAX_ROWID : Z := 9223372036854775807.

(** The largest rowid among the rows, if there is a row. *)
Fixpoint last_rowid (l : list Row) : option Z :=
  match l with
  | [] => None
  | r :: l' =>
      match last_rowid l' with
      | None => Some (id r)
      | Some m => Some (Z.max (id r) m)
      end
  end.

(** The rowid of the next row of an [AUTOINCREMENT] table: one more than
    the largest rowid in the table and than the largest rowid ever handed
    out; [SQLITE_FULL] when the largest rowid has been used. *)
Definition new_rowid (t : Table) : result Z :=
  let v :=
    match last_rowid (rows t) with
    | None => Some 1
    | Some m => if (m >=? MAX_ROWID)%Z then None else Some (m + 1)
    end in
  match v with
  | None => Raise SQLITE_FULL
  | Some v =>
      if (seq t =? MAX_ROWID)%Z then Raise SQLITE_FULL
      else Ok (Z.max v (seq t + 1))
  end.

(** [CREATE TABLE IF NOT EXISTS fitness_plan (...)], committed. *)
Definition create_table_if_not_exists : M unit :=
  fun db =>
    match db with
    | None => (Ok tt, Some {| rows := []; seq := 0 |})
    | Some t => (Ok tt, Some t)
    end.

(** [INSERT INTO fitness_plan (profile, plan_text, created_at, source,
    day_of_the_week) VALUES (?, ?, ?, ?, ?)], committed: the rowid of the
    new row ([cur.lastrowid]).  A statement that raises changes nothing.
    The errors are those of the statement on a file that can be read and
    written; a locked or read-only file, an I/O error and a full disk are
    failures of the storage and are not part of this model. *)
Definition insert (p text at_ src d : string) : M Z :=
  fun db =>
    match db with
    | None => (Raise no_such_table, db)
    | Some t =>
        match new_rowid t with
        | Raise e => (Raise e, db)
        | Ok i =>
            (Ok i,
             Some {| rows := (rows t ++ [mkRow i p text at_ src d])%list;
                     seq := i |})
        end
    end.

(** [WHERE profile = ? AND day_of_the_week = ?]. *)
Definition matches (p d : string) (r : Row) : bool :=
  (profile r =? p) && (day_of_the_week r =? d).

Definition where_ (p d : string) (l : list Row) : list Row :=
  filter (matches p d) l.

(** [a] is before [b] in the byte order of SQLite's TEXT comparison (the
    BINARY collation). *)
Definition text_lt (a b : string) : Prop := (a ?= b) = Lt.
Definition text_le (a b : string) : Prop := (a ?= b) <> Gt.

(** [x] may stand before [y] in [ORDER BY created_at DESC]. *)
Definition desc (x y : Row) : Prop := text_le (created_at y) (created_at x).

(** [r] is a latest row of [l]: no row of [l] has a greater [created_at]. *)
Definition latest_in (l : list Row) (r : Row) : Prop :=
  In r l /\ Forall (fun x => text_le (created_at x) (created_at r)) l.

Section OrderBy.

(** SQLite leaves the order of rows with equal sort keys unspecified.
    [tie x r] says whether the row [x], met earlier in the scan, stays
    before the row [r] of the same [created_at]. *)
Variable tie : Row -> Row -> bool.

(** Whether [x] goes before [r] in [ORDER BY created_at DESC]. *)
Definition goes_before (x r : Row) : bool :=
  match (created_at x ?= created_at r) with
  | Gt => true
  | Eq => tie x r
  | Lt => false
  end.

Fixpoint sorter_insert (r : Row) (l : list Row) : list Row :=
  match l with
  | [] => [r]
  | x :: l' => if goes_before x r then x :: sorter_insert r l' else r :: l
  end.

(** [ORDER BY created_at DESC]: the rows of the scan go into the sorter one
    after the other. *)
Definition order_by_created_at_desc (l : list Row) : list Row :=
  fold_left (fun acc r => sorter_insert r acc) l [].

(** The rows of [SELECT plan_text ... WHERE profile = ? AND day_of_the_week
    = ? ORDER BY created_at DESC LIMIT 1]. *)
Definition query (l : list Row) (p d : string) : list string :=
  map plan_text (firstn 1 (order_by_created_at_desc (where_ p d l))).

(** The [SELECT] statement, then [fetchone()]: the first row of the
    result, a row of one column, or [None]. *)
Definition select_latest (p d : string) : M (option string) :=
  fun db =>
    match db with
    | None => (Raise no_such_table, db)
    | Some t => (Ok (hd_error (query (rows t) p d)), db)
    end.

End OrderBy.

(** The tie-break of a sorter that keeps rows of equal keys in scan
    order. *)
Definition scan_order : Row -> Row -> bool := fun _ _ => true.

End Sqlite.

(* ================================================================== *)
(** ** The module [wellness/db.py] *)
(* ================================================================== *)

Module Wellness.
Import PyDatetime Sqlite.

(** What a call reads from the system: the clock in UTC
    ([datetime.now(timezone.utc)]) and the clock in local time
    ([datetime.now()]). *)
Record Env : Type := mkEnv {
  utc_now : datetime;
  local_now : datetime
}.

(** The columns of the [CREATE TABLE] statement. *)
Definition fitness_plan_columns : list Column :=
  [ mkColumn "id" "INTEGER" true true false None;
    mkColumn "profile" "TEXT" false false true None;
    mkColumn "plan_text" "TEXT" false false true None;
    mkColumn "created_at" "TEXT" false false true None;
    mkColumn "source" "TEXT" false false false (Some "agent");
    mkColumn "day_of_the_week" "TEXT" false false true None ].

(** The schema of a file that only this module writes. *)
Definition schema (db : Db) : Schema :=
  match db with
  | None => []
  | Some _ => [("fitness_plan", fitness_plan_columns)]
  end.

(** [init_db()]. *)
Definition init_db : M unit := create_table_if_not_exists.

(** [save_plan(profile, plan_text, day="", source="agent")]; an argument
    left out is [None]. *)
Definition save_plan (env : Env) (profile plan_text : string)
    (day source : option string) : M Z :=
  let day := match day with Some d => d | None => "" end in
  let source := match source with Some s => s | None => "agent" end in
  init_db ;;
  let created_at := isoformat (utc_now env) in
  insert profile plan_text created_at source day.

(** [_today_weekday()]. *)
Definition _today_weekday (env : Env) : string := strftime_A (local_now env).

Section Retrieval.

Variable tie : Row -> Row -> bool.

(** [get_plans(profile, day=None)]. *)
Definition get_plans (env : Env) (profile : string) (day : option string)
    : M string :=
  init_db ;;
  let day := match day with None => _today_weekday env | Some d => d end in
  row <- select_latest tie profile day ;;
  ret (match row with Some text => text | None => "" end).

End Retrieval.

End Wellness.

(* ================================================================== *)
(** ** Sequences of calls *)
(* ================================================================== *)

Module Calls.
Import PyDatetime Sqlite Wellness.

(** One call of [save_plan]: its arguments and what the clocks show. *)
Record SaveCall : Type := mkCall {
  c_env : Env;
  c_profile : string;
  c_text : string;
  c_day : option string;
  c_source : option string
}.

Definition call (c : SaveCall) : M Z :=
  save_plan (c_env c) (c_profile c) (c_text c) (c_day c) (c_source c).

(** The calls of [cs] one after the other on the same file: what each
    returned or raised, and the file at the end.  The caller goes on after
    a call that raised. *)
Fixpoint run_saves (cs : list SaveCall) (db : Db) : list (result Z) * Db :=
  match cs with
  | [] => ([], db)
  | c :: cs' =>
      let (r, db1) := call c db in
      let (rs, db2) := run_saves cs' db1 in
      (r :: rs, db2)
  end.

(** The ids that the calls returned, in call order. *)
Fixpoint returned_ids (rs : list (result Z)) : list Z :=
  match rs with
  | [] => []
  | Ok i :: rs' => i :: returned_ids rs'
  | Raise _ :: rs' => returned_ids rs'
  end.

(** The day and the source that a call stores. *)
Definition stored_day (day : option string) : string :=
  match day with Some d => d | None => "" end.

Definition stored_source (source : option string) : string :=
  match source with Some s => s | None => "agent" end.

(** The row that the call [c] inserts when it is given the id [i]. *)
Definition row_saved (c : SaveCall) (i : Z) : Row :=
  mkRow i (c_profile c) (c_text c) (isoformat (utc_now (c_env c)))
        (stored_source (c_source c)) (stored_day (c_day c)).

(** The rows of the calls that returned. *)
Fixpoint saved_rows (cs : list SaveCall) (rs : list (result Z)) : list Row :=
  match cs, rs with
  | c :: cs', Ok i :: rs' => row_saved c i :: saved_rows cs' rs'
  | _ :: cs', Raise _ :: rs' => saved_rows cs' rs'
  | _, _ => []
  end.

(** The primary key: no two rows of the table have the same id. *)
Definition primary_key (db : Db) : Prop := NoDup (map id (rows_of db)).

(** The day that [get_plans] looks up. *)
Definition resolved_day (env : Env) (day : option string) : string :=
  match day with None => _today_weekday env | Some d => d end.

(** A call of one of the three functions of the module. *)
Inductive Op : Type :=
| OpInit
| OpSave (c : SaveCall)
| OpGet (env : Env) (profile : string) (day : option string).

(** Whether the call only reads. *)
Definition reads_only (o : Op) : Prop :=
  match o with OpSave _ => False | _ => True end.

Section Ops.

Variable tie : Row -> Row -> bool.

(** The file after the call; the caller goes on after a call that
    raised. *)
Definition run_op (o : Op) (db : Db) : Db :=
  match o with
  | OpInit => after init_db db
  | OpSave c => after (call c) db
  | OpGet env p day => after (get_plans tie env p day) db
  end.

Definition run_ops (os : list Op) (db : Db) : Db :=
  fold_left (fun d o => run_op o d) os db.

End Ops.

(** The table as SQLite keeps it when rows are only inserted: the rows in
    the order of their ids, the ids positive and not above the sequence. *)
Definition well_formed (db : Db) : Prop :=
  StronglySorted Z.lt (map id (rows_of db))
  /\ Forall (fun r => 1 <= id r <= seq_of db) (rows_of db)
  /\ 0 <= seq_of db.

(** The table has no room for a new row. *)
Definition full (db : Db) : Prop :=
  seq_of db = MAX_ROWID \/ Exists (fun r => MAX_ROWID <= id r) (rows_of db).

End Calls.

(* ================================================================== *)
(** ** Sample clocks and files *)
(* ================================================================== *)

Module Samples.
Import PyDatetime Sqlite Wellness Calls.

(** Monday 3 June 2024, 12:00:00 UTC, on a machine whose local time is
    UTC. *)
Definition monday_noon : Env :=
  mkEnv (mkDatetime 2024 6 3 12 0 0 0) (mkDatetime 2024 6 3 12 0 0 0).

(** One second earlier: the clock after it was set back. *)
Definition monday_1159 : Env :=
  mkEnv (mkDatetime 2024 6 3 11 59 59 0) (mkDatetime 2024 6 3 11 59 59 0).

(** Two minutes before noon. *)
Definition monday_1158 : Env :=
  mkEnv (mkDatetime 2024 6 3 11 58 0 0) (mkDatetime 2024 6 3 11 58 0 0).

(** One second after noon. *)
Definition monday_noon_1s : Env :=
  mkEnv (mkDatetime 2024 6 3 12 0 1 0) (mkDatetime 2024 6 3 12 0 1 0).

(** Thursday 1 January 1970, 00:00 UTC, on a machine whose local time is
    UTC. *)
Definition epoch : Env :=
  mkEnv (mkDatetime 1970 1 1 0 0 0 0) (mkDatetime 1970 1 1 0 0 0 0).

(** Half a second after noon. *)
Definition monday_noon_half : Env :=
  mkEnv (mkDatetime 2024 6 3 12 0 0 500000) (mkDatetime 2024 6 3 12 0 0 500000).

(** Thursday 4 January 2024, 23:30 UTC, on a machine two hours ahead of
    UTC, where it is Friday already. *)
Definition thursday_utc_friday_local : Env :=
  mkEnv (mkDatetime 2024 1 4 23 30 0 0) (mkDatetime 2024 1 5 1 30 0 0).

(** A file without the table. *)
Definition no_table : Db := None.

(** The file after [save_plan("p1", "old", day="Monday")] at noon. *)
Definition one_plan : Db :=
  after (save_plan monday_noon "p1" "old" (Some "Monday") None) no_table.

(** Two further saves. *)
Definition two_calls : list SaveCall :=
  [mkCall monday_noon_half "p1" "B" (Some "Monday") None;
   mkCall monday_1159 "p2" "C" None (Some "chat")].

(** The plans of Thursday and of Friday. *)
Definition thursday_and_friday : Db :=
  snd (run_saves [mkCall monday_noon "p1" "thu" (Some "Thursday") None;
                  mkCall monday_noon "p1" "fri" (Some "Friday") None]
                 no_table).

(** Two rows written by hand, with offsets: 12:00 at +02:00 is 10:00 UTC,
    one hour before 11:00 UTC. *)
Definition other_offsets : Db :=
  Some (mkTable
          [mkRow 1 "p1" "at 10:00 UTC" "2024-06-03T12:00:00+02:00" "agent" "Monday";
           mkRow 2 "p1" "at 11:00 UTC" "2024-06-03T11:00:00+00:00" "agent" "Monday"]
          2).

(** A table that has handed out the largest rowid. *)
Definition full_table : Db := Some (mkTable [] MAX_ROWID).

(** A table that holds a plan and has handed out the largest rowid. *)
Definition full_with_plan : Db :=
  Some (mkTable
          [mkRow MAX_ROWID "p1" "last" "2024-06-03T12:00:00+00:00" "agent" "Monday"]
          MAX_ROWID).

(** Saves and reads in turn. *)
Definition mixed_calls : list Op :=
  [OpGet monday_noon "p1" None;
   OpSave (mkCall monday_noon_half "p1" "B" (Some "Monday") None);
   OpInit;
   OpSave (mkCall monday_1159 "p2" "C" None (Some "chat"));
   OpGet monday_noon "p2" (Some "")].

(** Reads alone. *)
Definition read_calls : list Op :=
  [OpGet monday_noon "p1" None; OpInit; OpGet monday_noon "p2" (Some "")].

End Samples.

(* ================================================================== *)
(** ** The model on sample inputs *)
(* ================================================================== *)

Module Runs_on_samples.
Import PyDatetime Sqlite Wellness Calls Samples.

Example isoformat_with_microseconds :
  isoformat (mkDatetime 2024 3 7 9 5 1 12345) = "2024-03-07T09:05:01.012345+00:00".
Proof. reflexivity. Qed.

Example isoformat_whole_second :
  isoformat (mkDatetime 987 12 31 23 59 59 0) = "0987-12-31T23:59:59+00:00".
Proof. reflexivity. Qed.

(** A number with more digits than the width is written in full. *)
Example fmt_0d_wide : fmt_0d 2 12345 = "12345" /\ fmt_0d 4 7 = "0007".
Proof. split; reflexivity. Qed.

Example weekday_2026_11_04 :
  strftime_A (mkDatetime 2026 11 4 12 0 0 0) = "Wednesday".
Proof. reflexivity. Qed.

Example weekday_2000_02_29 :
  strftime_A (mkDatetime 2000 2 29 0 0 0 0) = "Tuesday".
Proof. reflexivity. Qed.

Example weekday_0001_01_01 :
  strftime_A (mkDatetime 1 1 1 0 0 0 0) = "Monday".
Proof. reflexivity. Qed.

Example one_plan_rows :
  one_plan
  = Some (mkTable [mkRow 1 "p1" "old" "2024-06-03T12:00:00+00:00" "agent" "Monday"] 1).
Proof. reflexivity. Qed.

Example two_calls_run :
  run_saves two_calls one_plan
  = ([Ok 2; Ok 3],
     Some (mkTable
             [mkRow 1 "p1" "old" "2024-06-03T12:00:00+00:00" "agent" "Monday";
              mkRow 2 "p1" "B" "2024-06-03T12:00:00.500000+00:00" "agent" "Monday";
              mkRow 3 "p2" "C" "2024-06-03T11:59:59+00:00" "chat" ""]
             3)).
Proof. reflexivity. Qed.

Example get_plans_of_two_calls :
  returned (get_plans scan_order monday_noon "p1" (Some "Monday"))
           (snd (run_saves two_calls one_plan)) = Ok "B".
Proof. reflexivity. Qed.

Example save_on_full_table :
  save_plan monday_noon "p1" "text" None None full_table
  = (Raise SQLITE_FULL, full_table).
Proof. reflexivity. Qed.

Example epoch_is_thursday :
  days_since_0001_01_01 (local_now epoch) = 719162
  /\ name_after_monday 719162 = "Thursday"
  /\ _today_weekday epoch = "Thursday".
Proof. repeat split. Qed.

Example today_is_local :
  _today_weekday thursday_utc_friday_local = "Friday"
  /\ strftime_A (utc_now thursday_utc_friday_local) = "Thursday".
Proof. split; reflexivity. Qed.

(** On Thursday evening in UTC, Friday already in local time, the plan of
    Friday is returned. *)
Example default_day_is_local :
  returned (get_plans scan_order thursday_utc_friday_local "p1" None)
           thursday_and_friday = Ok "fri".
Proof. reflexivity. Qed.

Example empty_day_found_by_empty_day_only :
  let db := after (save_plan monday_noon "p1" "text-A" None None) no_table in
  returned (get_plans scan_order monday_noon "p1" (Some "")) db = Ok "text-A"
  /\ returned (get_plans scan_order monday_noon "p1" None) db = Ok "".
Proof. split; reflexivity. Qed.

(** The string of 12:00 at +02:00 is greater than the string of 11:00 UTC,
    one hour later: the text of the earlier instant is returned. *)
Example text_order_of_other_offsets :
  returned (get_plans scan_order monday_noon "p1" (Some "Monday")) other_offsets
  = Ok "at 10:00 UTC".
Proof. reflexivity. Qed.

End Runs_on_samples.

(* ================================================================== *)
(** ** The order of TEXT values *)
(* ================================================================== *)

Module TextOrder.
Import Sqlite.

Lemma ascii_compare_spec (a b : ascii) :
  CompareSpec (a = b) (N_of_ascii a < N_of_ascii b)%N
              (N_of_ascii b < N_of_ascii a)%N (Ascii.compare a b).
Proof.
  unfold Ascii.compare.
  destruct (N.compare_spec (N_of_ascii a) (N_of_ascii b)) as [E | L | G];
    constructor; trivial.
  rewrite <- (ascii_N_embedding a), <- (ascii_N_embedding b), E; reflexivity.
Qed.

Lemma ascii_compare_refl (a : ascii) : Ascii.compare a a = Eq.
Proof. unfold Ascii.compare. apply N.compare_refl. Qed.

Lemma compare_refl (s : string) : (s ?= s) = Eq.
Proof.
  induction s as [| c s IH]; simpl; trivial.
  rewrite ascii_compare_refl; exact IH.
Qed.

Lemma compare_eq (a b : string) : (a ?= b) = Eq <-> a = b.
Proof.
  split; [apply String.compare_eq_iff | intros ->; apply compare_refl].
Qed.

Lemma compare_gt_lt (a b : string) : (a ?= b) = Gt <-> (b ?= a) = Lt.
Proof.
  rewrite (String.compare_antisym b a).
  destruct (a ?= b); simpl; split; congruence.
Qed.

Lemma text_lt_trans (a b c : string) : text_lt a b -> text_lt b c -> text_lt a c.
Proof.
  unfold text_lt. revert b c.
  induction a as [| x a IH]; intros [| y b] [| z c]; simpl; try congruence.
  destruct (ascii_compare_spec x y) as [Exy | Lxy | Gxy];
    destruct (ascii_compare_spec y z) as [Eyz | Lyz | Gyz];
    destruct (ascii_compare_spec x z) as [Exz | Lxz | Gxz];
    subst; try congruence; try lia.
  apply IH.
Qed.

Lemma text_lt_irrefl (a : string) : ~ text_lt a a.
Proof. unfold text_lt. rewrite compare_refl. discriminate. Qed.

Lemma text_le_refl (a : string) : text_le a a.
Proof. unfold text_le. rewrite compare_refl. discriminate. Qed.

Lemma text_le_cases (a b : string) : text_le a b <-> text_lt a b \/ a = b.
Proof.
  unfold text_le, text_lt. rewrite <- compare_eq.
  destruct (a ?= b); split; intros H; try tauto; try congruence.
  - destruct H; discriminate.
Qed.

Lemma text_lt_le (a b : string) : text_lt a b -> text_le a b.
Proof. intros H. apply text_le_cases. now left. Qed.

Lemma text_le_trans (a b c : string) : text_le a b -> text_le b c -> text_le a c.
Proof.
  rewrite !text_le_cases.
  intros [L1 | ->] [L2 | ->]; auto.
  left. eapply text_lt_trans; eassumption.
Qed.

Lemma text_lt_le_trans (a b c : string) : text_lt a b -> text_le b c -> text_lt a c.
Proof.
  rewrite text_le_cases. intros L1 [L2 | ->]; trivial.
  eapply text_lt_trans; eassumption.
Qed.

Lemma text_le_lt_trans (a b c : string) : text_le a b -> text_lt b c -> text_lt a c.
Proof.
  rewrite text_le_cases. intros [L1 | ->] L2; trivial.
  eapply text_lt_trans; eassumption.
Qed.


Lemma text_lt_not_le (a b : string) : text_lt a b -> ~ text_le b a.
Proof.
  intros L H. apply (text_lt_irrefl a). eapply text_lt_le_trans; eassumption.
Qed.

Lemma text_le_total (a b : string) : text_le a b \/ text_le b a.
Proof.
  unfold text_le. rewrite (String.compare_antisym b a).
  destruct (a ?= b); simpl; [left | left | right]; discriminate.
Qed.

End TextOrder.

(* ================================================================== *)
(** ** The query of [get_plans] *)
(* ================================================================== *)

Module Query.
Import Sqlite TextOrder.

Lemma matches_true (p d : string) (r : Row) :
  matches p d r = true <-> profile r = p /\ day_of_the_week r = d.
Proof.
  unfold matches. rewrite andb_true_iff, !String.eqb_eq. tauto.
Qed.

Lemma matches_false (p d : string) (r : Row) :
  matches p d r = false <-> profile r <> p \/ day_of_the_week r <> d.
Proof.
  unfold matches. rewrite andb_false_iff, !String.eqb_neq. tauto.
Qed.

Lemma where_In (p d : string) (l : list Row) (r : Row) :
  In r (where_ p d l) <-> In r l /\ profile r = p /\ day_of_the_week r = d.
Proof. unfold where_. rewrite filter_In, matches_true. tauto. Qed.

Lemma where_app (p d : string) (l l' : list Row) :
  where_ p d (l ++ l')%list = (where_ p d l ++ where_ p d l')%list.
Proof. apply filter_app. Qed.

Section Sorter.

Variable tie : Row -> Row -> bool.

Lemma goes_before_true (x r : Row) : goes_before tie x r = true -> desc x r.
Proof.
  unfold goes_before, desc, text_le.
  rewrite (String.compare_antisym (created_at r) (created_at x)).
  destruct (created_at x ?= created_at r); simpl; congruence.
Qed.

Lemma goes_before_false (x r : Row) : goes_before tie x r = false -> desc r x.
Proof.
  unfold goes_before, desc, text_le.
  destruct (created_at x ?= created_at r); congruence.
Qed.

Lemma sorter_insert_perm (r : Row) (l : list Row) :
  Permutation (sorter_insert tie r l) (r :: l).
Proof.
  induction l as [| x l IH]; simpl; auto.
  destruct (goes_before tie x r); auto.
  eapply perm_trans; [apply perm_skip, IH | apply perm_swap].
Qed.

Lemma sorter_insert_sorted (r : Row) (l : list Row) :
  StronglySorted desc l -> StronglySorted desc (sorter_insert tie r l).
Proof.
  induction 1 as [| x l S IH F]; simpl.
  - repeat constructor.
  - destruct (goes_before tie x r) eqn:G.
    + constructor; trivial.
      eapply Permutation_Forall; [symmetry; apply sorter_insert_perm |].
      constructor; trivial. now apply goes_before_true.
    + apply goes_before_false in G.
      constructor; [now constructor |].
      constructor; trivial.
      eapply Forall_impl; [| exact F].
      intros y D. unfold desc in *. eapply text_le_trans; eassumption.
Qed.

Lemma fold_insert_perm (l acc : list Row) :
  Permutation (fold_left (fun a r => sorter_insert tie r a) l acc) (acc ++ l)%list.
Proof.
  revert acc. induction l as [| r l IH]; intros acc; simpl.
  - now rewrite app_nil_r.
  - rewrite IH.
    rewrite (sorter_insert_perm r acc).
    apply (Permutation_middle acc l r).
Qed.

Lemma fold_insert_sorted (l acc : list Row) :
  StronglySorted desc acc ->
  StronglySorted desc (fold_left (fun a r => sorter_insert tie r a) l acc).
Proof.
  revert acc. induction l as [| r l IH]; intros acc S; simpl; trivial.
  apply IH, sorter_insert_sorted, S.
Qed.

(** [ORDER BY] returns the rows it got, *)
Lemma order_by_perm (l : list Row) :
  Permutation (order_by_created_at_desc tie l) l.
Proof. apply (fold_insert_perm l []). Qed.

(** in descending order of [created_at]. *)
Lemma order_by_sorted (l : list Row) :
  StronglySorted desc (order_by_created_at_desc tie l).
Proof. apply fold_insert_sorted. constructor. Qed.

Lemma order_by_nil (l : list Row) :
  order_by_created_at_desc tie l = [] <-> l = [].
Proof.
  split; intros H.
  - apply Permutation_nil. rewrite <- H. apply order_by_perm.
  - subst. reflexivity.
Qed.

(** The first row of the ordered result is a latest row. *)
Lemma order_by_head (l : list Row) (r : Row) :
  hd_error (order_by_created_at_desc tie l) = Some r -> latest_in l r.
Proof.
  intros H.
  pose proof (order_by_perm l) as P.
  pose proof (order_by_sorted l) as S.
  destruct (order_by_created_at_desc tie l) as [| x o]; [discriminate |].
  injection H as ->.
  split.
  - eapply Permutation_in; [exact P | now left].
  - eapply Permutation_Forall; [exact P |].
    constructor; [apply text_le_refl |].
    inversion S; subst; assumption.
Qed.

Lemma limit_1_fetchone (l : list Row) (p d : string) :
  hd_error (query tie l p d)
  = option_map plan_text (hd_error (order_by_created_at_desc tie (where_ p d l))).
Proof. unfold query. now destruct (order_by_created_at_desc tie (where_ p d l)). Qed.

(** The query finds nothing exactly when no row matches. *)
Lemma query_None (l : list Row) (p d : string) :
  hd_error (query tie l p d) = None <-> where_ p d l = [].
Proof.
  rewrite limit_1_fetchone, <- order_by_nil.
  destruct (order_by_created_at_desc tie (where_ p d l)); simpl;
    split; congruence.
Qed.

(** What the query finds is the text of a latest row among those that
    match. *)
Lemma query_Some (l : list Row) (p d text : string) :
  hd_error (query tie l p d) = Some text ->
  exists r, latest_in (where_ p d l) r /\ plan_text r = text.
Proof.
  rewrite limit_1_fetchone.
  destruct (hd_error _) as [r |] eqn:H; simpl; [| discriminate].
  intros [= <-]. exists r. split; trivial. now apply order_by_head.
Qed.

(** A row that is strictly later than every other matching row is the one
    the query finds, whatever the tie-break. *)
Lemma query_strict (l : list Row) (p d : string) (r : Row) :
  In r (where_ p d l) ->
  (forall x, In x (where_ p d l) ->
             x = r \/ text_lt (created_at x) (created_at r)) ->
  hd_error (query tie l p d) = Some (plan_text r).
Proof.
  intros I M.
  destruct (hd_error (query tie l p d)) as [text |] eqn:S.
  - apply query_Some in S as (r' & [I' F'] & <-).
    destruct (M r' I') as [-> | L]; trivial.
    rewrite Forall_forall in F'. apply F' in I.
    exfalso. eapply text_lt_not_le; eassumption.
  - apply query_None in S. rewrite S in I. destruct I.
Qed.

(** The query reads the matching rows only. *)
Lemma query_ext (l l' : list Row) (p d : string) :
  where_ p d l = where_ p d l' -> query tie l p d = query tie l' p d.
Proof. unfold query. now intros ->. Qed.

End Sorter.

End Query.

(* ================================================================== *)
(** ** Lemmas on the three operations *)
(* ================================================================== *)

Module Facts.
Import PyDatetime Sqlite Wellness Calls TextOrder Query.

Lemma init_db_returns (db : Db) : returned init_db db = Ok tt.
Proof. now destruct db. Qed.

Lemma init_db_rows (db : Db) : rows_of (after init_db db) = rows_of db.
Proof. now destruct db. Qed.

Lemma init_db_seq (db : Db) : seq_of (after init_db db) = seq_of db.
Proof. now destruct db. Qed.

Lemma init_db_idem (db : Db) : after init_db (after init_db db) = after init_db db.
Proof. now destruct db. Qed.

Lemma init_db_on_table (t : Table) : after init_db (Some t) = Some t.
Proof. reflexivity. Qed.

(** After [init_db] the table is there, with the rows and the sequence of
    the file before. *)
Lemma init_db_run (db : Db) :
  exists t, init_db db = (Ok tt, Some t)
            /\ rows t = rows_of db /\ seq t = seq_of db.
Proof. destruct db as [t |]; eexists; repeat split. Qed.

Lemma last_rowid_None (l : list Row) : last_rowid l = None -> l = [].
Proof.
  destruct l as [| r l]; trivial. simpl.
  destruct (last_rowid l); discriminate.
Qed.

Lemma last_rowid_Some (l : list Row) (m : Z) :
  last_rowid l = Some m -> Forall (fun r => id r <= m) l.
Proof.
  revert m. induction l as [| r l IH]; intros m; simpl; [constructor |].
  destruct (last_rowid l) as [m' |] eqn:E.
  - intros [= <-]. constructor; [lia |].
    eapply Forall_impl; [| apply (IH m' eq_refl)].
    simpl. intros; lia.
  - intros [= <-]. apply last_rowid_None in E. subst.
    repeat constructor. lia.
Qed.

(** The rowid of a new row is above every rowid of the table and above
    every rowid handed out before. *)
Lemma new_rowid_fresh (t : Table) (i : Z) :
  new_rowid t = Ok i -> Forall (fun r => id r < i) (rows t) /\ seq t < i.
Proof.
  unfold new_rowid.
  destruct (last_rowid (rows t)) as [m |] eqn:E.
  - destruct (m >=? MAX_ROWID)%Z; [discriminate |].
    destruct (seq t =? MAX_ROWID)%Z; [discriminate |].
    intros [= <-]. split; [| lia].
    eapply Forall_impl; [| apply (last_rowid_Some _ _ E)].
    simpl. intros; lia.
  - destruct (seq t =? MAX_ROWID)%Z; [discriminate |].
    intros [= <-]. apply last_rowid_None in E. rewrite E.
    split; [constructor | lia].
Qed.

(** A table whose rowids and sequence are below the largest rowid has
    room for a new row. *)
Lemma new_rowid_room (t : Table) :
  Forall (fun r => id r < MAX_ROWID) (rows t) -> seq t < MAX_ROWID ->
  exists i, new_rowid t = Ok i.
Proof.
  intros F S. unfold new_rowid.
  assert ((seq t =? MAX_ROWID)%Z = false) as -> by (apply Z.eqb_neq; lia).
  destruct (last_rowid (rows t)) as [m |] eqn:E; [| eauto].
  assert (m < MAX_ROWID) as L.
  { clear S. revert m E. induction F as [| r l Hr F IH]; intros m; simpl; [discriminate |].
    destruct (last_rowid l) as [m' |].
    - intros [= <-]. specialize (IH m' eq_refl). lia.
    - intros [= <-]. exact Hr. }
  assert ((m >=? MAX_ROWID)%Z = false) as ->; [| eauto].
  rewrite Z.geb_leb. apply Z.leb_gt. exact L.
Qed.

(** A call of [save_plan] that returns has appended its row, under an id
    above all the ids of the table. *)
Lemma save_plan_Ok (env : Env) (p text : string) (day src : option string)
    (db db' : Db) (i : Z) :
  save_plan env p text day src db = (Ok i, db') ->
  rows_of db' =
    (rows_of db ++ [mkRow i p text (isoformat (utc_now env))
                          (stored_source src) (stored_day day)])%list
  /\ Forall (fun r => id r < i) (rows_of db)
  /\ seq_of db < i
  /\ seq_of db' = i.
Proof.
  unfold save_plan, bind, insert.
  destruct (init_db_run db) as (t & -> & R & S).
  destruct (new_rowid t) as [j | e] eqn:N; [| discriminate].
  intros [= <- <-]. apply new_rowid_fresh in N as [F L].
  simpl. rewrite <- R, <- S. auto.
Qed.

(** A call of [save_plan] that raises has found the table full; the file
    is as [init_db] left it. *)
Lemma save_plan_Raise (env : Env) (p text : string) (day src : option string)
    (db db' : Db) (e : Error) :
  save_plan env p text day src db = (Raise e, db') ->
  e = SQLITE_FULL /\ db' = after init_db db.
Proof.
  unfold save_plan, bind, insert, after.
  destruct (init_db_run db) as (t & -> & _).
  unfold new_rowid.
  destruct (match last_rowid (rows t) with
            | Some m => if (m >=? MAX_ROWID)%Z then None else Some (m + 1)
            | None => Some 1
            end) as [v |];
    [destruct (seq t =? MAX_ROWID)%Z |]; intros [= <- <-]; auto.
Qed.

(** A table with room below the largest rowid takes the save: the call
    returns an id. *)
Lemma save_plan_returns (env : Env) (p text : string) (day src : option string)
    (db : Db) :
  Forall (fun r => id r < MAX_ROWID) (rows_of db) -> seq_of db < MAX_ROWID ->
  exists i db', save_plan env p text day src db = (Ok i, db').
Proof.
  intros F S. unfold save_plan, bind, insert.
  destruct (init_db_run db) as (t & -> & Rt & St).
  destruct (new_rowid_room t) as [i ->]; [now rewrite Rt | now rewrite St |].
  eauto.
Qed.

Lemma call_Ok (c : SaveCall) (db db' : Db) (i : Z) :
  call c db = (Ok i, db') ->
  rows_of db' = (rows_of db ++ [row_saved c i])%list
  /\ Forall (fun r => id r < i) (rows_of db)
  /\ seq_of db < i /\ seq_of db' = i.
Proof. apply save_plan_Ok. Qed.

Lemma call_Raise (c : SaveCall) (db db' : Db) (e : Error) :
  call c db = (Raise e, db') -> rows_of db' = rows_of db /\ seq_of db' = seq_of db.
Proof.
  intros H. apply save_plan_Raise in H as [_ ->].
  split; [apply init_db_rows | apply init_db_seq].
Qed.

(** [get_plans] on any file: it returns, never raises; what it returns is
    read from the rows of the file, and the file after it is the file after
    [init_db]. *)
Lemma get_plans_run (tie : Row -> Row -> bool) (env : Env) (p : string)
    (day : option string) (db : Db) :
  get_plans tie env p day db =
  (Ok (match hd_error (query tie (rows_of db) p (resolved_day env day)) with
       | Some text => text
       | None => ""
       end),
   after init_db db).
Proof.
  unfold get_plans, bind, select_latest, ret, after, resolved_day.
  destruct (init_db_run db) as (t & -> & R & _). simpl. now rewrite R.
Qed.

Lemma get_plans_returned (tie : Row -> Row -> bool) (env : Env) (p : string)
    (day : option string) (db : Db) :
  returned (get_plans tie env p day) db =
  Ok (match hd_error (query tie (rows_of db) p (resolved_day env day)) with
      | Some text => text
      | None => ""
      end).
Proof. unfold returned. now rewrite get_plans_run. Qed.

Lemma get_plans_after (tie : Row -> Row -> bool) (env : Env) (p : string)
    (day : option string) (db : Db) :
  after (get_plans tie env p day) db = after init_db db.
Proof. unfold after at 1. now rewrite get_plans_run. Qed.

(** [get_plans] reads the matching rows only. *)
Lemma get_plans_ext (tie : Row -> Row -> bool) (env : Env) (p : string)
    (day : option string) (db db' : Db) :
  where_ p (resolved_day env day) (rows_of db)
  = where_ p (resolved_day env day) (rows_of db') ->
  returned (get_plans tie env p day) db = returned (get_plans tie env p day) db'.
Proof.
  intros H. rewrite !get_plans_returned.
  now rewrite (query_ext tie (rows_of db) (rows_of db') p _ H).
Qed.

(** When a row matches, [get_plans] returns the text of a latest one. *)
Lemma get_plans_latest (tie : Row -> Row -> bool) (env : Env) (p d : string)
    (db : Db) :
  where_ p d (rows_of db) <> [] ->
  exists r, latest_in (where_ p d (rows_of db)) r
            /\ returned (get_plans tie env p (Some d)) db = Ok (plan_text r).
Proof.
  intros NE. rewrite get_plans_returned. simpl.
  destruct (hd_error (query tie _ p d)) as [text |] eqn:S.
  - apply query_Some in S as (r & L & <-). eauto.
  - apply query_None in S. contradiction.
Qed.

(** When the file holds a row for (p, d), [get_plans(p, d)] returns the
    text of a row for (p, d) whose [created_at] no row for (p, d)
    exceeds. *)
Lemma get_plans_latest_row (tie : Row -> Row -> bool) (env : Env) (p d : string)
    (db : Db) (x : Row) :
  In x (rows_of db) -> profile x = p -> day_of_the_week x = d ->
  exists r, In r (rows_of db) /\ profile r = p /\ day_of_the_week r = d
            /\ returned (get_plans tie env p (Some d)) db = Ok (plan_text r)
            /\ (forall y, In y (rows_of db) -> profile y = p ->
                          day_of_the_week y = d ->
                          text_le (created_at y) (created_at r)).
Proof.
  intros Ix Px Dx.
  assert (where_ p d (rows_of db) <> []) as NE.
  { intros E. assert (In x (where_ p d (rows_of db))) as I by (apply where_In; auto).
    rewrite E in I. destruct I. }
  destruct (get_plans_latest tie env p d db NE) as (r & [I F] & E).
  apply where_In in I as (I & P & D).
  exists r. repeat split; trivial.
  intros y Iy Py Dy. rewrite Forall_forall in F.
  apply (F y). apply where_In. auto.
Qed.

(** [get_plans] returns the text of the row that is strictly later than
    every other matching row. *)
Lemma get_plans_strict (tie : Row -> Row -> bool) (env : Env) (p d : string)
    (db : Db) (r : Row) :
  In r (rows_of db) -> profile r = p -> day_of_the_week r = d ->
  (forall x, In x (rows_of db) -> profile x = p -> day_of_the_week x = d ->
             x = r \/ text_lt (created_at x) (created_at r)) ->
  returned (get_plans tie env p (Some d)) db = Ok (plan_text r).
Proof.
  intros I P D M. rewrite get_plans_returned. simpl.
  rewrite (query_strict tie _ p d r); trivial.
  - apply where_In; auto.
  - intros x Hx. apply where_In in Hx as (Ix & Px & Dx). auto.
Qed.

(** When no row matches, [get_plans] returns the empty string. *)
Lemma get_plans_absent (tie : Row -> Row -> bool) (env : Env) (p d : string)
    (db : Db) :
  where_ p d (rows_of db) = [] ->
  returned (get_plans tie env p (Some d)) db = Ok "".
Proof.
  intros E. rewrite get_plans_returned. simpl.
  now apply (query_None tie) in E as ->.
Qed.

End Facts.

(* ================================================================== *)
(** ** Lemmas on sequences of saves *)
(* ================================================================== *)

Module Runs.
Import PyDatetime Sqlite Wellness Calls TextOrder Query Facts.

(** The rows of the file after a sequence of saves: the rows before, then
    the row of every call that returned, in call order. *)
Lemma run_saves_rows (cs : list SaveCall) :
  forall (db db' : Db) (rs : list (result Z)),
  run_saves cs db = (rs, db') ->
  rows_of db' = (rows_of db ++ saved_rows cs rs)%list /\ List.length rs = List.length cs.
Proof.
  induction cs as [| c cs IH]; intros db db' rs; simpl.
  - intros [= <- <-]. now rewrite app_nil_r.
  - destruct (call c db) as [r db1] eqn:C.
    destruct (run_saves cs db1) as [rs' db2] eqn:R.
    intros [= <- <-]. apply IH in R as [R L].
    destruct r as [i | e]; simpl.
    + apply call_Ok in C as (C & _). rewrite R, C, <- app_assoc. auto.
    + apply call_Raise in C as (C & _). rewrite R, C. auto.
Qed.

Lemma saved_rows_ids (cs : list SaveCall) :
  forall rs, List.length rs = List.length cs -> map id (saved_rows cs rs) = returned_ids rs.
Proof.
  induction cs as [| c cs IH]; intros [| [i | e] rs]; simpl; try discriminate; trivial.
  - intros [= L]. now rewrite IH.
  - intros [= L]. now apply IH.
Qed.

Lemma saved_rows_In (cs : list SaveCall) :
  forall rs r, In r (saved_rows cs rs) ->
  exists c i, In c cs /\ r = row_saved c i.
Proof.
  induction cs as [| c cs IH]; intros [| [i | e] rs] r; simpl; try tauto.
  - intros [<- | I]; [eauto |].
    apply IH in I as (c' & j & I & E). eauto.
  - intros I. apply IH in I as (c' & j & I & E). eauto.
Qed.

(** The row of the [k]-th call is among the saved rows. *)
Lemma saved_rows_nth (cs : list SaveCall) :
  forall rs k c i,
  nth_error cs k = Some c -> nth_error rs k = Some (Ok i) ->
  In (row_saved c i) (saved_rows cs rs).
Proof.
  induction cs as [| c0 cs IH]; intros rs [| k] c i; simpl; try discriminate.
  - intros [= ->]. destruct rs as [| r rs]; [discriminate |].
    intros [= ->]. now left.
  - intros Hc. destruct rs as [| [j | e] rs]; [discriminate | |]; intros Hr.
    + right. eapply IH; eassumption.
    + eapply IH; eassumption.
Qed.

(** The ids that a sequence of saves returns grow strictly, and each is
    above the ids and the sequence of the table it started from. *)
Lemma run_saves_ids (cs : list SaveCall) :
  forall (db db' : Db) (rs : list (result Z)),
  run_saves cs db = (rs, db') ->
  StronglySorted Z.lt (returned_ids rs)
  /\ Forall (fun i => seq_of db < i /\ Forall (fun r => id r < i) (rows_of db))
            (returned_ids rs).
Proof.
  induction cs as [| c cs IH]; intros db db' rs; simpl.
  - intros [= <- <-]. split; constructor.
  - destruct (call c db) as [r db1] eqn:C.
    destruct (run_saves cs db1) as [rs' db2] eqn:R.
    intros [= <- <-]. apply IH in R as [S F].
    destruct r as [i | e]; simpl.
    + apply call_Ok in C as (C & Fi & Li & Si).
      rewrite C, Si in F. split; [| constructor; [auto |]].
      * constructor; trivial.
        eapply Forall_impl; [| exact F]. simpl. tauto.
      * eapply Forall_impl; [| exact F]. simpl.
        intros j [Lj Fj]. split; [lia |].
        apply Forall_app in Fj. tauto.
    + apply call_Raise in C as (C & Se). rewrite C, Se in F. auto.
Qed.

(** After a save for (p, d) whose row is strictly later than the rows that
    the file held for (p, d), and after further saves that are for another
    profile or day or strictly older, [get_plans(p, day=d)] returns the
    saved text. *)
Lemma save_then_get (tie : Row -> Row -> bool) (env env' : Env)
    (p t d : string) (src : option string) (db db1 : Db) (i : Z)
    (cs : list SaveCall) :
  save_plan env p t (Some d) src db = (Ok i, db1) ->
  (forall x, In x (rows_of db) -> profile x = p -> day_of_the_week x = d ->
             text_lt (created_at x) (isoformat (utc_now env))) ->
  Forall (fun c => c_profile c = p -> stored_day (c_day c) = d ->
                   text_lt (isoformat (utc_now (c_env c))) (isoformat (utc_now env)))
         cs ->
  returned (get_plans tie env' p (Some d)) (snd (run_saves cs db1)) = Ok t.
Proof.
  intros S Old Later.
  apply save_plan_Ok in S as (R1 & _).
  destruct (run_saves cs db1) as [rs db2] eqn:E.
  apply run_saves_rows in E as [R2 _]. cbn [snd].
  set (r := mkRow i p t (isoformat (utc_now env)) (stored_source src) d).
  change t with (plan_text r).
  apply get_plans_strict; trivial.
  - rewrite R2, R1. apply in_or_app. left. apply in_or_app. right. now left.
  - intros x I Px Dx. rewrite R2, R1 in I.
    apply in_app_or in I as [I | I]; [apply in_app_or in I as [I | [<- | []]] |].
    + right. now apply Old.
    + now left.
    + right. apply saved_rows_In in I as (c & j & Ic & ->).
      rewrite Forall_forall in Later. now apply (Later c Ic).
Qed.

(** A row appended for another profile or day does not change what
    [get_plans] returns. *)
Lemma get_plans_other_row (tie : Row -> Row -> bool) (env : Env) (p d : string)
    (db db' : Db) (r : Row) :
  rows_of db' = (rows_of db ++ [r])%list ->
  profile r <> p \/ day_of_the_week r <> d ->
  returned (get_plans tie env p (Some d)) db'
  = returned (get_plans tie env p (Some d)) db.
Proof.
  intros R NE. apply get_plans_ext. simpl.
  rewrite R, where_app. simpl.
  apply matches_false in NE as ->. apply app_nil_r.
Qed.

Lemma lt_all_not_in (i : Z) (l : list Row) :
  Forall (fun r => id r < i) l -> ~ In i (map id l).
Proof.
  intros F I. apply in_map_iff in I as (r & E & I).
  rewrite Forall_forall in F. apply F in I. lia.
Qed.

Lemma sorted_lt_NoDup (l : list Z) : StronglySorted Z.lt l -> NoDup l.
Proof.
  induction 1 as [| i l S IH F]; constructor; trivial.
  intros I. rewrite Forall_forall in F. apply F in I. lia.
Qed.

(** Under the primary key, a row is known by its id. *)
Lemma primary_key_inj (l : list Row) (x y : Row) :
  NoDup (map id l) -> In x l -> In y l -> id x = id y -> x = y.
Proof.
  induction l as [| r l IH]; simpl; [tauto |].
  intros N Ix Iy E. inversion N as [| ? ? Nr N']; subst.
  destruct Ix as [-> | Ix], Iy as [-> | Iy]; trivial.
  - exfalso. apply Nr. rewrite E. now apply in_map.
  - exfalso. apply Nr. rewrite <- E. now apply in_map.
  - now apply IH.
Qed.

(** The primary key holds after a sequence of saves. *)
Lemma run_saves_primary_key (cs : list SaveCall) (db db' : Db)
    (rs : list (result Z)) :
  primary_key db -> run_saves cs db = (rs, db') -> primary_key db'.
Proof.
  intros PK Run.
  destruct (run_saves_ids cs db db' rs Run) as [Sorted Fresh].
  destruct (run_saves_rows cs db db' rs Run) as [Rows Len].
  unfold primary_key in *. rewrite Rows, map_app, (saved_rows_ids cs rs Len).
  apply NoDup_app; repeat split; trivial.
  - now apply sorted_lt_NoDup.
  - intros i I J. rewrite Forall_forall in Fresh.
    destruct (Fresh i J) as [_ F]. now apply (lt_all_not_in i (rows_of db)).
Qed.

Lemma iter_init_db (n : nat) (db : Db) :
  Nat.iter (S n) (after init_db) db = after init_db db.
Proof.
  induction n as [| n IH]; trivial.
  change (Nat.iter (S (S n)) (after init_db) db)
    with (after init_db (Nat.iter (S n) (after init_db) db)).
  rewrite IH. apply init_db_idem.
Qed.

Lemma day_name_In (wd : Z) : In (day_name wd) weekday_names.
Proof.
  unfold weekday_names.
  destruct wd as [| [[[| |] | [| |] |] | [[| |] | [| |] |] |] |]; simpl; tauto.
Qed.

Lemma today_weekday_not_empty (env : Env) : _today_weekday env <> "".
Proof.
  pose proof (day_name_In (weekday (local_now env))) as H.
  unfold _today_weekday, strftime_A. intros E. rewrite E in H.
  simpl in H. repeat destruct H as [H | H]; try discriminate H. exact H.
Qed.

End Runs.


(* ================================================================== *)
(** ** [isoformat] keeps the order of time *)
(* ================================================================== *)

Module IsoOrder.
Import PyDatetime TextOrder.

Lemma lex_Eq_r (c : comparison) : lex c Eq = c.
Proof. now destruct c. Qed.

Lemma digit_compare (a b : Z) :
  0 <= a < 10 -> 0 <= b < 10 -> Ascii.compare (digit a) (digit b) = (a ?= b)%Z.
Proof.
  intros Ha Hb. unfold Ascii.compare, digit.
  rewrite !N_ascii_embedding by lia.
  destruct (Z.compare_spec a b) as [E | L | G].
  - subst. apply N.compare_refl.
  - apply N.compare_lt_iff. lia.
  - apply N.compare_gt_iff. lia.
Qed.

(** Splitting off the leading digit. *)
Lemma mod_pow_succ (n : Z) (k : nat) :
  n mod 10 ^ Z.of_nat (S k)
  = (n / 10 ^ Z.of_nat k) mod 10 * 10 ^ Z.of_nat k + n mod 10 ^ Z.of_nat k.
Proof.
  assert (0 < 10 ^ Z.of_nat k) as P by (apply Z.pow_pos_nonneg; lia).
  rewrite Nat2Z.inj_succ, Z.pow_succ_r by lia.
  rewrite (Z.mul_comm 10), Z.rem_mul_r by lia. lia.
Qed.

Lemma compare_split (B q r q' r' : Z) :
  0 <= r < B -> 0 <= r' < B ->
  (q * B + r ?= q' * B + r')%Z = lex (q ?= q')%Z (r ?= r')%Z.
Proof.
  intros Hr Hr'.
  destruct (Z.compare_spec q q') as [E | L | G]; simpl.
  - subst. destruct (Z.compare_spec r r') as [E | L | G].
    + subst. apply Z.compare_refl.
    + apply Z.compare_lt_iff. lia.
    + apply Z.compare_gt_iff. lia.
  - apply Z.compare_lt_iff. nia.
  - apply Z.compare_gt_iff. nia.
Qed.

(** Two numbers written with the same number of digits compare as their
    digits do, and what follows the digits decides between equal numbers. *)
Lemma digits_compare_mod (k : nat) (n m : Z) (s s' : string) :
  (digits k n ++ s ?= digits k m ++ s')
  = lex (n mod 10 ^ Z.of_nat k ?= m mod 10 ^ Z.of_nat k)%Z (s ?= s').
Proof.
  induction k as [| k IH].
  - simpl. now rewrite !Z.mod_1_r.
  - cbn [digits append String.compare].
    rewrite digit_compare by (apply Z.mod_pos_bound; lia).
    rewrite IH, !mod_pow_succ.
    assert (0 < 10 ^ Z.of_nat k) as P by (apply Z.pow_pos_nonneg; lia).
    rewrite compare_split by (apply Z.mod_pos_bound; lia).
    now destruct ((n / 10 ^ Z.of_nat k) mod 10 ?= (m / 10 ^ Z.of_nat k) mod 10)%Z.
Qed.

Lemma digits_compare (k : nat) (n m : Z) (s s' : string) :
  0 <= n < 10 ^ Z.of_nat k -> 0 <= m < 10 ^ Z.of_nat k ->
  (digits k n ++ s ?= digits k m ++ s') = lex (n ?= m)%Z (s ?= s').
Proof.
  intros Hn Hm. rewrite digits_compare_mod, !Z.mod_small; trivial.
Qed.

(** A number below [10 ^ w] has at most [w] digits, so that ["%0wd"]
    writes exactly [w] characters. *)
Lemma ndigits_fuel_le (fuel w : nat) (n : Z) :
  (1 <= w)%nat -> 0 <= n < 10 ^ Z.of_nat w -> (ndigits_fuel fuel n <= w)%nat.
Proof.
  revert w n. induction fuel as [| f IH]; intros w n Hw Hn; simpl; trivial.
  destruct (Z.ltb_spec n 10) as [L | G]; trivial.
  destruct w as [| w]; [lia |].
  rewrite Nat2Z.inj_succ, Z.pow_succ_r in Hn by lia.
  destruct w as [| w]; [simpl in Hn; lia |].
  apply le_n_S, IH; [lia |].
  split; [apply Z.div_pos; lia | apply Z.div_lt_upper_bound; lia].
Qed.

Lemma fmt_0d_digits (w : nat) (n : Z) :
  (1 <= w)%nat -> 0 <= n < 10 ^ Z.of_nat w -> fmt_0d w n = digits w n.
Proof.
  intros Hw Hn. unfold fmt_0d, ndigits.
  now rewrite Nat.max_l by now apply ndigits_fuel_le.
Qed.

(** A separator in front of both strings does not decide. *)
Lemma sep_compare (c : ascii) (s s' : string) :
  (String c "" ++ s ?= String c "" ++ s') = (s ?= s').
Proof. simpl. now rewrite ascii_compare_refl. Qed.

Lemma fraction_compare (a b : Z) :
  0 <= a <= 999999 -> 0 <= b <= 999999 ->
  (fraction a ?= fraction b) = (a ?= b)%Z.
Proof.
  intros Ha Hb. unfold fraction.
  destruct (Z.eqb_spec a 0) as [-> | Na], (Z.eqb_spec b 0) as [-> | Nb].
  - reflexivity.
  - rewrite fmt_0d_digits by (simpl; lia).
    symmetry. apply Z.compare_lt_iff. lia.
  - rewrite fmt_0d_digits by (simpl; lia).
    symmetry. apply Z.compare_gt_iff. lia.
  - rewrite !fmt_0d_digits by (simpl; lia).
    change (("." ++ digits 6 a) ++ "+00:00") with (String "." "" ++ digits 6 a ++ "+00:00").
    change (("." ++ digits 6 b) ++ "+00:00") with (String "." "" ++ digits 6 b ++ "+00:00").
    rewrite sep_compare, digits_compare by (simpl; lia).
    apply lex_Eq_r.
Qed.

Lemma days_in_month_le (y m : Z) : days_in_month y m <= 31.
Proof.
  unfold days_in_month.
  destruct (m =? 2)%Z; [destruct (is_leap y); lia |].
  destruct ((m =? 4)%Z || (m =? 6)%Z || (m =? 9)%Z || (m =? 11)%Z); lia.
Qed.

(** The TEXT order of two timestamps that [isoformat] wrote is the order
    in time of the instants. *)
Lemma isoformat_compare (a b : datetime) :
  valid a -> valid b -> (isoformat a ?= isoformat b) = chrono_compare a b.
Proof.
  intros (Ya & Ma & Da & Ha & Mia & Sa & Ua) (Yb & Mb & Db & Hb & Mib & Sb & Ub).
  pose proof (days_in_month_le (year a) (month a)).
  pose proof (days_in_month_le (year b) (month b)).
  unfold isoformat, chrono_compare.
  rewrite !fmt_0d_digits by (simpl; lia).
  rewrite digits_compare, sep_compare by (simpl; lia).
  rewrite digits_compare, sep_compare by (simpl; lia).
  rewrite digits_compare, sep_compare by (simpl; lia).
  rewrite digits_compare, sep_compare by (simpl; lia).
  rewrite digits_compare, sep_compare by (simpl; lia).
  rewrite digits_compare by (simpl; lia).
  now rewrite fraction_compare.
Qed.

Lemma validb_valid (d : datetime) : validb d = true -> valid d.
Proof.
  unfold validb, valid. rewrite !andb_true_iff, !Z.leb_le. tauto.
Qed.

End IsoOrder.

(* ================================================================== *)
(** ** The weekday formula and the calendar *)
(* ================================================================== *)

Module Calendar.
Import PyDatetime.

(** One year more: 365 or 366 days more before the year. *)
Lemma days_before_year_succ (y : Z) :
  1 <= y -> days_before_year (y + 1) = days_before_year y + year_length y.
Proof.
  intros Hy. unfold days_before_year, year_length, is_leap.
  replace (y + 1 - 1) with y by lia.
  destruct (Z.eqb_spec (y mod 4) 0) as [E4 | N4];
    destruct (Z.eqb_spec (y mod 100) 0) as [E100 | N100];
    destruct (Z.eqb_spec (y mod 400) 0) as [E400 | N400];
    simpl; Z.div_mod_to_equations; lia.
Qed.

Lemma days_before_year_count (n : nat) :
  days_before_year (Z.of_nat n + 1) = days_in_years n.
Proof.
  induction n as [| n IH]; [reflexivity |].
  cbn [days_in_years]. rewrite <- IH.
  replace (Z.of_nat (S n) + 1) with ((Z.of_nat n + 1) + 1) by lia.
  rewrite days_before_year_succ by lia.
  f_equal. f_equal. lia.
Qed.

Lemma days_before_month_count (y m : Z) :
  1 <= m <= 12 -> days_before_month y m = days_in_months y (Z.to_nat (m - 1)).
Proof.
  intros Hm.
  assert (m = 1 \/ m = 2 \/ m = 3 \/ m = 4 \/ m = 5 \/ m = 6 \/ m = 7
          \/ m = 8 \/ m = 9 \/ m = 10 \/ m = 11 \/ m = 12) as C by lia.
  repeat destruct C as [-> | C]; try subst m;
    match goal with
    | |- context [Z.to_nat ?e] =>
        let n := eval vm_compute in (Z.to_nat e) in change (Z.to_nat e) with n
    end;
    cbn -[is_leap]; destruct (is_leap y); reflexivity.
Qed.

(** The ordinal of a date is one more than the days counted from 1 January
    of the year 1. *)
Lemma toordinal_count (d : datetime) :
  valid d -> toordinal d = days_since_0001_01_01 d + 1.
Proof.
  intros (Y & M & _). unfold toordinal, ymd2ord, days_since_0001_01_01.
  rewrite <- days_before_year_count, <- days_before_month_count by trivial.
  rewrite Z2Nat.id by lia.
  replace (year d - 1 + 1) with (year d) by lia. lia.
Qed.

Lemma day_name_after_monday (n : Z) : day_name (n mod 7) = name_after_monday n.
Proof.
  unfold name_after_monday.
  pose proof (Z.mod_pos_bound n 7 eq_refl) as B.
  assert (n mod 7 = 0 \/ n mod 7 = 1 \/ n mod 7 = 2 \/ n mod 7 = 3
          \/ n mod 7 = 4 \/ n mod 7 = 5 \/ n mod 7 = 6) as C by lia.
  repeat destruct C as [-> | C]; try rewrite C; reflexivity.
Qed.

(** The weekday that [strftime("%A")] names is the weekday of the calendar:
    as many days after a Monday as went by since 1 January of the year 1. *)
Lemma strftime_A_calendar (d : datetime) :
  valid d -> strftime_A d = name_after_monday (days_since_0001_01_01 d).
Proof.
  intros V. unfold strftime_A, weekday.
  rewrite toordinal_count by trivial.
  replace (days_since_0001_01_01 d + 1 + 6)
    with (days_since_0001_01_01 d + 1 * 7) by lia.
  rewrite Z.mod_add by lia. apply day_name_after_monday.
Qed.

End Calendar.

(* ================================================================== *)
(** ** The properties of the store *)
(* ================================================================== *)

Import PyDatetime Sqlite Wellness Calls TextOrder Query Facts Runs IsoOrder.

(** *** Round trip *)

(** C1, as it is written, on a file that has a later row: the file holds
    the plan "old" saved for ("p1", "Monday") at 12:00:00; the clock is set
    back one second and "text-A" is saved for ("p1", "Monday"); the call
    returns the id 2, and [get_plans("p1", day="Monday")] returns "old",
    which is not "text-A". *)
Lemma round_trip_later_row_wins :
  returned (save_plan Samples.monday_1159 "p1" "text-A" (Some "Monday") None)
           Samples.one_plan = Ok 2
  /\ returned (get_plans scan_order Samples.monday_1159 "p1" (Some "Monday"))
       (after (save_plan Samples.monday_1159 "p1" "text-A" (Some "Monday") None)
              Samples.one_plan)
     = Ok "old"
  /\ ("old" =? "text-A") = false.
Proof. repeat split. Qed.

(** C1 (amended): when every row that the file holds for (p, d) is
    strictly older, in the order of TEXT, than the row that
    [save_plan(p, t, day=d)] inserts, then after that save and after any
    further saves, each for another profile or day or with a strictly older
    [created_at], [get_plans(p, day=d)] returns [t]. *)
Theorem round_trip (tie : Row -> Row -> bool) (env env' : Env)
    (p t d : string) (src : option string) (db db1 : Db) (i : Z)
    (cs : list SaveCall) :
  save_plan env p t (Some d) src db = (Ok i, db1) ->
  (forall x, In x (rows_of db) -> profile x = p -> day_of_the_week x = d ->
             text_lt (created_at x) (isoformat (utc_now env))) ->
  Forall (fun c => c_profile c = p -> stored_day (c_day c) = d ->
                   text_lt (isoformat (utc_now (c_env c))) (isoformat (utc_now env)))
         cs ->
  returned (get_plans tie env' p (Some d)) (snd (run_saves cs db1)) = Ok t.
Proof. apply save_then_get. Qed.

Lemma round_trip_witness :
  returned (get_plans scan_order Samples.monday_noon "p1" (Some "Monday"))
    (snd (run_saves
            [mkCall Samples.monday_noon_half "p2" "other" (Some "Monday") None;
             mkCall Samples.monday_1159 "p1" "late" (Some "Monday") None]
            (after (save_plan Samples.monday_noon "p1" "text-A" (Some "Monday") None)
                   Samples.no_table)))
  = Ok "text-A".
Proof.
  apply (round_trip scan_order Samples.monday_noon Samples.monday_noon
           "p1" "text-A" "Monday" None Samples.no_table _ 1).
  - reflexivity.
  - intros x [].
  - repeat constructor; simpl; intros; try discriminate; reflexivity.
Defined.

(** *** Latest wins *)

(** C2, as it is written, on a file that has a later row: the file holds
    the plan "old" saved for ("p1", "Monday") at 12:00:00; "A" is saved for
    ("p1", "Monday") with the clock at 11:58:00 and then "B" with the clock
    at 11:59:59, strictly later than that of "A"; both calls return, and
    [get_plans("p1", "Monday")] returns "old", which is not "B". *)
Lemma latest_wins_stored_row_is_later :
  returned (save_plan Samples.monday_1158 "p1" "A" (Some "Monday") None)
           Samples.one_plan = Ok 2
  /\ returned (save_plan Samples.monday_1159 "p1" "B" (Some "Monday") None)
       (after (save_plan Samples.monday_1158 "p1" "A" (Some "Monday") None)
              Samples.one_plan) = Ok 3
  /\ (isoformat (utc_now Samples.monday_1158)
      ?= isoformat (utc_now Samples.monday_1159)) = Lt
  /\ returned (get_plans scan_order Samples.monday_noon "p1" (Some "Monday"))
       (after (save_plan Samples.monday_1159 "p1" "B" (Some "Monday") None)
          (after (save_plan Samples.monday_1158 "p1" "A" (Some "Monday") None)
                 Samples.one_plan))
     = Ok "old"
  /\ ("old" =? "B") = false.
Proof. repeat split. Qed.

(** C2 (amended): when the file holds a row for (p, d), [get_plans(p, d)]
    returns the text of a row for (p, d) whose [created_at] no row for
    (p, d) exceeds; when one row for (p, d) is strictly later than all the
    others, it returns the text of that row; and after two saves for (p, d)
    of the texts A and then B, the [created_at] of B strictly later than
    that of A and than those of the rows that the file held for (p, d), it
    returns B. *)
Theorem latest_wins :
  (forall tie env p d db x,
     In x (rows_of db) -> profile x = p -> day_of_the_week x = d ->
     exists r, In r (rows_of db) /\ profile r = p /\ day_of_the_week r = d
               /\ returned (get_plans tie env p (Some d)) db = Ok (plan_text r)
               /\ (forall y, In y (rows_of db) -> profile y = p ->
                             day_of_the_week y = d ->
                             text_le (created_at y) (created_at r)))
  /\
  (forall tie env p d db r,
     In r (rows_of db) -> profile r = p -> day_of_the_week r = d ->
     (forall x, In x (rows_of db) -> profile x = p -> day_of_the_week x = d ->
                x = r \/ text_lt (created_at x) (created_at r)) ->
     returned (get_plans tie env p (Some d)) db = Ok (plan_text r))
  /\
  (forall tie envA envB env p d A B srcA srcB db iA dbA iB dbB,
     save_plan envA p A (Some d) srcA db = (Ok iA, dbA) ->
     save_plan envB p B (Some d) srcB dbA = (Ok iB, dbB) ->
     text_lt (isoformat (utc_now envA)) (isoformat (utc_now envB)) ->
     (forall x, In x (rows_of db) -> profile x = p -> day_of_the_week x = d ->
                text_lt (created_at x) (isoformat (utc_now envB))) ->
     returned (get_plans tie env p (Some d)) dbB = Ok B).
Proof.
  split; [| split].
  - intros. eapply get_plans_latest_row; eassumption.
  - intros. now apply get_plans_strict.
  - intros tie envA envB env p d A B srcA srcB db iA dbA iB dbB SA SB AB Old.
    apply save_plan_Ok in SA as (RA & _).
    apply (save_then_get tie envB env p B d srcB dbA dbB iB [] SB).
    + intros x I Px Dx. rewrite RA in I.
      apply in_app_or in I as [I | [<- | []]]; auto.
    + constructor.
Qed.

(** On the file that holds "old" of 12:00:00: "A" saved at 12:00:00.5 and
    "B" at 12:00:01. *)
Lemma latest_wins_witness :
  returned (get_plans scan_order Samples.monday_noon "p1" (Some "Monday"))
    (after (save_plan Samples.monday_noon_1s "p1" "B" (Some "Monday") None)
       (after (save_plan Samples.monday_noon_half "p1" "A" (Some "Monday") None)
              Samples.one_plan))
  = Ok "B".
Proof.
  apply (proj2 (proj2 latest_wins) scan_order Samples.monday_noon_half
           Samples.monday_noon_1s Samples.monday_noon "p1" "Monday" "A" "B"
           None None Samples.one_plan 2 _ 3 _ eq_refl eq_refl eq_refl).
  intros x [<- | []] _ _. reflexivity.
Defined.

(** Two saves for (p, d), the second at a later time of the UTC clock than
    the first and than the rows that the file held: the second text is
    returned. *)
Corollary latest_wins_in_time (tie : Row -> Row -> bool) (envA envB env : Env)
    (p d A B : string) (srcA srcB : option string) (db dbA dbB : Db) (iA iB : Z) :
  valid (utc_now envA) -> valid (utc_now envB) ->
  chrono_compare (utc_now envA) (utc_now envB) = Lt ->
  save_plan envA p A (Some d) srcA db = (Ok iA, dbA) ->
  save_plan envB p B (Some d) srcB dbA = (Ok iB, dbB) ->
  (forall x, In x (rows_of db) -> profile x = p -> day_of_the_week x = d ->
             text_lt (created_at x) (isoformat (utc_now envB))) ->
  returned (get_plans tie env p (Some d)) dbB = Ok B.
Proof.
  intros VA VB L SA SB Old.
  pose proof (save_plan_Ok _ _ _ _ _ _ _ _ SA) as (RA & _).
  apply (save_then_get tie envB env p B d srcB dbA dbB iB [] SB); [| constructor].
  intros x I Px Dx. rewrite RA in I.
  apply in_app_or in I as [I | [<- | []]]; auto.
  unfold text_lt. simpl. now rewrite isoformat_compare.
Qed.

(** *** Default day *)

(** C3: [get_plans(p)] without a day is [get_plans(p, day=w)], where [w]
    is the full English name of the weekday of the local clock: the name of
    the day that comes as many days after a Monday as went by from Monday
    1 January of the year 1 to the local date; [w] is read from the local
    clock alone, whatever the UTC clock shows. *)
Theorem default_day_resolution (tie : Row -> Row -> bool) (env : Env)
    (p : string) (db : Db) :
  get_plans tie env p None db = get_plans tie env p (Some (_today_weekday env)) db
  /\ _today_weekday env = day_name (weekday (local_now env))
  /\ In (_today_weekday env) weekday_names
  /\ (forall utc, _today_weekday (mkEnv utc (local_now env)) = _today_weekday env)
  /\ (valid (local_now env) ->
      _today_weekday env
      = name_after_monday (days_since_0001_01_01 (local_now env))).
Proof.
  repeat split.
  - apply day_name_In.
  - intros V. now apply Calendar.strftime_A_calendar.
Qed.

(** On Thursday evening in UTC, Friday already in local time: 738889 days
    after Monday 1 January of the year 1, which is 4 days after a Monday. *)
Lemma default_day_resolution_witness :
  _today_weekday Samples.thursday_utc_friday_local = name_after_monday 738889
  /\ name_after_monday 738889 = "Friday".
Proof.
  split; [| reflexivity].
  apply (proj2 (proj2 (proj2 (proj2
           (default_day_resolution scan_order Samples.thursday_utc_friday_local
              "p1" Samples.no_table))))).
  now apply validb_valid.
Defined.

(** *** Absence *)

(** C4: [get_plans] returns a string on every file and never raises; when
    no row matches (p, d), [get_plans(p, d)] returns the empty string; and
    after a save of the empty text for (p, d), when a matching row exists,
    it returns the empty string as well. *)
Theorem absence_returns_empty (tie : Row -> Row -> bool) (env : Env)
    (p d : string) (db : Db) :
  (forall x, In x (rows_of db) -> ~ (profile x = p /\ day_of_the_week x = d)) ->
  returned (get_plans tie env p (Some d)) db = Ok ""
  /\ (forall q day db0, exists text, returned (get_plans tie env q day) db0 = Ok text)
  /\ (forall env0 src i db',
        save_plan env0 p "" (Some d) src db = (Ok i, db') ->
        (exists r, In r (rows_of db') /\ profile r = p /\ day_of_the_week r = d
                   /\ plan_text r = "")
        /\ returned (get_plans tie env p (Some d)) db' = Ok "").
Proof.
  intros No. split; [| split].
  - apply get_plans_absent.
    destruct (where_ p d (rows_of db)) as [| r l] eqn:W; trivial.
    assert (In r (where_ p d (rows_of db))) as I by (rewrite W; now left).
    apply where_In in I as (I & P). destruct (No r I P).
  - intros q day db0. rewrite get_plans_returned. eauto.
  - intros env0 src i db' S. split.
    + apply save_plan_Ok in S as (R & _). rewrite R.
      eexists. split; [apply in_or_app; right; now left |]. repeat split.
    + apply (save_then_get tie env0 env p "" d src db db' i [] S); [| constructor].
      intros x I Px Dx. destruct (No x I (conj Px Dx)).
Qed.

Lemma absence_returns_empty_witness :
  returned (get_plans scan_order Samples.monday_noon "unknown_profile" (Some "Monday"))
           Samples.one_plan = Ok "".
Proof.
  apply (absence_returns_empty scan_order Samples.monday_noon
           "unknown_profile" "Monday" Samples.one_plan).
  intros x [<- | []] [P _]. discriminate P.
Defined.

(** *** Isolation *)

(** C5: a save for (p2, d2) leaves what [get_plans(p1, d1)] returns
    unchanged when (p1, d1) is not (p2, d2), whether the save returns or
    raises; and two files with the same rows for (p, d) give the same
    result. *)
Theorem isolation :
  (forall tie env env2 p1 d1 p2 t2 day2 src2 db,
     p1 <> p2 \/ d1 <> stored_day day2 ->
     returned (get_plans tie env p1 (Some d1))
              (after (save_plan env2 p2 t2 day2 src2) db)
     = returned (get_plans tie env p1 (Some d1)) db)
  /\
  (forall tie env p d db db',
     where_ p d (rows_of db) = where_ p d (rows_of db') ->
     returned (get_plans tie env p (Some d)) db
     = returned (get_plans tie env p (Some d)) db').
Proof.
  split.
  - intros tie env env2 p1 d1 p2 t2 day2 src2 db NE. unfold after.
    destruct (save_plan env2 p2 t2 day2 src2 db) as [[i | e] db'] eqn:S; simpl.
    + apply save_plan_Ok in S as (R & _).
      apply (get_plans_other_row tie env p1 d1 db db' _ R). simpl.
      destruct NE; auto.
    + apply save_plan_Raise in S as [_ ->].
      apply get_plans_ext. now rewrite init_db_rows.
  - intros tie env p d db db' H. now apply get_plans_ext.
Qed.

Lemma isolation_witness :
  returned (get_plans scan_order Samples.monday_noon "p1" (Some "Monday"))
    (after (save_plan Samples.monday_noon_half "p2" "B" (Some "Monday") None)
           Samples.one_plan)
  = returned (get_plans scan_order Samples.monday_noon "p1" (Some "Monday"))
             Samples.one_plan.
Proof.
  apply (proj1 isolation). left. discriminate.
Defined.

(** *** Identifiers *)

(** C6: on a file that respects its primary key, the ids that a sequence
    of saves returns are strictly increasing in call order, above every id
    that the table held, and the ids of the table at the end are pairwise
    different; the id that a call returned is the id of the row of that
    call, and of no other row. *)
Theorem monotonic_identifiers (cs : list SaveCall) (db db' : Db)
    (rs : list (result Z)) :
  primary_key db ->
  run_saves cs db = (rs, db') ->
  StronglySorted Z.lt (returned_ids rs)
  /\ Forall (fun i => Forall (fun r => id r < i) (rows_of db)) (returned_ids rs)
  /\ primary_key db'
  /\ (forall k c i,
        nth_error cs k = Some c -> nth_error rs k = Some (Ok i) ->
        In (row_saved c i) (rows_of db')
        /\ (forall r, In r (rows_of db') -> id r = i -> r = row_saved c i)).
Proof.
  intros PK Run.
  destruct (run_saves_ids cs db db' rs Run) as [Sorted Fresh].
  destruct (run_saves_rows cs db db' rs Run) as [Rows Len].
  pose proof (run_saves_primary_key cs db db' rs PK Run) as PK'.
  repeat split; trivial.
  - eapply Forall_impl; [| exact Fresh]. simpl. tauto.
  - rewrite Rows. apply in_or_app. right. eapply saved_rows_nth; eassumption.
  - intros r I E.
    assert (In (row_saved c i) (rows_of db')) as I'.
    { rewrite Rows. apply in_or_app. right. eapply saved_rows_nth; eassumption. }
    apply (primary_key_inj (rows_of db')); trivial.
Qed.

Lemma monotonic_identifiers_witness :
  StronglySorted Z.lt
    (returned_ids (fst (run_saves Samples.two_calls Samples.one_plan)))
  /\ returned_ids (fst (run_saves Samples.two_calls Samples.one_plan)) = [2; 3].
Proof.
  split; [| reflexivity].
  refine (proj1 (monotonic_identifiers Samples.two_calls Samples.one_plan
                   (snd (run_saves Samples.two_calls Samples.one_plan))
                   (fst (run_saves Samples.two_calls Samples.one_plan))
                   _ (surjective_pairing _))).
  unfold primary_key. simpl. repeat constructor. intros [].
Defined.

(** *** The day at write time *)

(** C7: [save_plan(p, t)] without a day stores the empty string as
    [day_of_the_week]; the row is among those that [get_plans(p, day="")]
    selects from, and [t] is returned when the rows that the file held for
    (p, "") are strictly older; [get_plans] without a day looks up a
    weekday name, which is not the empty string: the row is not among those
    it selects from, and its result is what it was before the save. *)
Theorem write_time_literal_day (tie : Row -> Row -> bool) (env : Env)
    (p t : string) (src : option string) (db db' : Db) (i : Z) :
  save_plan env p t None src db = (Ok i, db') ->
  rows_of db' =
    (rows_of db ++ [mkRow i p t (isoformat (utc_now env)) (stored_source src) ""])%list
  /\ ((forall x, In x (rows_of db) -> profile x = p -> day_of_the_week x = "" ->
                 text_lt (created_at x) (isoformat (utc_now env))) ->
      forall env', returned (get_plans tie env' p (Some "")) db' = Ok t)
  /\ In (mkRow i p t (isoformat (utc_now env)) (stored_source src) "")
        (where_ p "" (rows_of db'))
  /\ (forall env' q,
        ~ In (mkRow i p t (isoformat (utc_now env)) (stored_source src) "")
             (where_ q (_today_weekday env') (rows_of db')))
  /\ (forall env' q, returned (get_plans tie env' q None) db'
                     = returned (get_plans tie env' q None) db)
  /\ (forall env', _today_weekday env' <> "").
Proof.
  intros S. pose proof (save_plan_Ok _ _ _ _ _ _ _ _ S) as (R & _).
  split; [exact R |]. split; [| split; [| split; [| split]]].
  - intros Old env'.
    apply (save_then_get tie env env' p t "" src db db' i [] S Old). constructor.
  - apply where_In. rewrite R. split; [| now split].
    apply in_or_app. right. now left.
  - intros env' q I. apply where_In in I as (_ & _ & D). simpl in D.
    symmetry in D. now apply (today_weekday_not_empty env').
  - intros env' q.
    apply (get_plans_other_row tie env' q (_today_weekday env') db db' _ R).
    right. simpl. intros E. now apply (today_weekday_not_empty env').
  - apply today_weekday_not_empty.
Qed.

Lemma write_time_literal_day_witness :
  rows_of (after (save_plan Samples.monday_noon "p1" "text-A" None None)
                 Samples.no_table)
  = [mkRow 1 "p1" "text-A" "2024-06-03T12:00:00+00:00" "agent" ""].
Proof.
  apply (write_time_literal_day scan_order Samples.monday_noon "p1" "text-A" None
           Samples.no_table _ 1 eq_refl).
Defined.

(** *** Retrieval reads only *)

(** C8: [get_plans] leaves the rows of the file, with all their fields,
    and the sequence of the table as they were; a file that has the table
    is unchanged, and a file that has no table gets the empty table from
    [init_db]. *)
Theorem retrieval_read_only (tie : Row -> Row -> bool) (env : Env)
    (p : string) (day : option string) (db : Db) :
  rows_of (after (get_plans tie env p day) db) = rows_of db
  /\ seq_of (after (get_plans tie env p day) db) = seq_of db
  /\ (forall t, db = Some t -> after (get_plans tie env p day) db = db)
  /\ after (get_plans tie env p day) db = after init_db db.
Proof.
  rewrite get_plans_after. repeat split.
  - apply init_db_rows.
  - apply init_db_seq.
  - now intros t ->.
Qed.

(** *** Schema initialization *)

(** C9: [init_db] called [n >= 1] times gives the file that one call
    gives, with the schema of the [CREATE TABLE] statement; the rows are
    those of the file before, and a file that has the table is unchanged;
    no call raises. *)
Theorem idempotent_init (n : nat) (db : Db) :
  (1 <= n)%nat ->
  Nat.iter n (after init_db) db = after init_db db
  /\ schema (Nat.iter n (after init_db) db) = schema (after init_db db)
  /\ schema (after init_db db) = [("fitness_plan", fitness_plan_columns)]
  /\ rows_of (Nat.iter n (after init_db) db) = rows_of db
  /\ (forall t, db = Some t -> Nat.iter n (after init_db) db = db)
  /\ (forall k, returned init_db (Nat.iter k (after init_db) db) = Ok tt).
Proof.
  intros H. destruct n as [| n]; [lia |].
  rewrite iter_init_db. repeat split.
  - now destruct db.
  - apply init_db_rows.
  - now intros t ->.
  - intros k. apply init_db_returns.
Qed.

Lemma idempotent_init_witness :
  Nat.iter 3 (after init_db) Samples.one_plan = after init_db Samples.one_plan
  /\ Nat.iter 3 (after init_db) Samples.no_table = after init_db Samples.no_table.
Proof.
  split.
  - apply (idempotent_init 3 Samples.one_plan). lia.
  - apply (idempotent_init 3 Samples.no_table). lia.
Defined.

(** *** The order that decides *)

(** C10: when the file holds a row for (p, d), the row whose text
    [get_plans(p, d)] returns is a row for (p, d) whose [created_at] no row
    for (p, d) exceeds in the byte order of TEXT values; the query compares
    the stored strings and never reads them as times.  For the strings that
    [save_plan] stores, the [isoformat] of UTC datetimes, that order is the
    order in time. *)
Theorem latest_is_text_greatest :
  (forall tie env p d db x,
     In x (rows_of db) -> profile x = p -> day_of_the_week x = d ->
     exists r, In r (rows_of db) /\ profile r = p /\ day_of_the_week r = d
               /\ returned (get_plans tie env p (Some d)) db = Ok (plan_text r)
               /\ (forall y, In y (rows_of db) -> profile y = p ->
                             day_of_the_week y = d ->
                             (created_at y ?= created_at r) <> Gt))
  /\
  (forall a b, valid a -> valid b ->
               (isoformat a ?= isoformat b) = chrono_compare a b).
Proof.
  split.
  - intros tie env p d db x Ix Px Dx.
    destruct (get_plans_latest_row tie env p d db x Ix Px Dx)
      as (r & I & P & D & E & F).
    exists r. repeat split; trivial.
  - apply isoformat_compare.
Qed.

(** On the file of the two rows written by hand, the row that is returned
    is the row of the greater string; and the strings of two clock readings
    are in the order of the readings. *)
Lemma latest_is_text_greatest_witness :
  (exists r,
     In r (rows_of Samples.other_offsets)
     /\ profile r = "p1" /\ day_of_the_week r = "Monday"
     /\ returned (get_plans scan_order Samples.monday_noon "p1" (Some "Monday"))
                 Samples.other_offsets = Ok (plan_text r)
     /\ (forall y, In y (rows_of Samples.other_offsets) -> profile y = "p1" ->
                   day_of_the_week y = "Monday" ->
                   (created_at y ?= created_at r) <> Gt))
  /\ (isoformat (utc_now Samples.monday_1159)
      ?= isoformat (utc_now Samples.monday_noon)) = Lt.
Proof.
  split.
  - apply (proj1 latest_is_text_greatest scan_order Samples.monday_noon
             "p1" "Monday" Samples.other_offsets
             (mkRow 2 "p1" "at 11:00 UTC" "2024-06-03T11:00:00+00:00" "agent" "Monday")).
    + right. now left.
    + reflexivity.
    + reflexivity.
  - rewrite (proj2 latest_is_text_greatest (utc_now Samples.monday_1159)
               (utc_now Samples.monday_noon)).
    + reflexivity.
    + now apply validb_valid.
    + now apply validb_valid.
Defined.

(* ================================================================== *)
(** ** Further lemmas: the sorter, the rowids, the format *)
(* ================================================================== *)

Module More.
Import PyDatetime Sqlite Wellness Calls TextOrder Query Facts Runs IsoOrder.

Section SorterAppend.

Variable tie : Row -> Row -> bool.

(** The last row of the scan goes into the sorter last. *)
Lemma order_by_snoc (l : list Row) (r : Row) :
  order_by_created_at_desc tie (l ++ [r])%list
  = sorter_insert tie r (order_by_created_at_desc tie l).
Proof. unfold order_by_created_at_desc. now rewrite fold_left_app. Qed.


(** A row strictly older than the first row of the sorter does not become
    the first row. *)
Lemma sorter_insert_older (r h : Row) (acc : list Row) :
  text_lt (created_at r) (created_at h) ->
  hd_error (sorter_insert tie r (h :: acc)) = Some h.
Proof.
  intros L. simpl. unfold goes_before.
  apply compare_gt_lt in L. now rewrite L.
Qed.

Lemma where_snoc_match (p d : string) (l : list Row) (r : Row) :
  profile r = p -> day_of_the_week r = d ->
  where_ p d (l ++ [r])%list = (where_ p d l ++ [r])%list.
Proof.
  intros P D. rewrite where_app. simpl.
  now rewrite (proj2 (matches_true p d r) (conj P D)).
Qed.


(** The query after a matching row was appended that is strictly older than
    a matching row finds what it found before. *)
Lemma query_snoc_older (l : list Row) (p d : string) (r x : Row) :
  profile r = p -> day_of_the_week r = d ->
  In x (where_ p d l) -> text_lt (created_at r) (created_at x) ->
  hd_error (query tie (l ++ [r])%list p d) = hd_error (query tie l p d).
Proof.
  intros P D I L. rewrite !limit_1_fetchone, where_snoc_match, order_by_snoc by trivial.
  destruct (order_by_created_at_desc tie (where_ p d l)) as [| h o] eqn:O.
  - apply (proj1 (order_by_nil tie _)) in O. rewrite O in I. destruct I.
  - assert (latest_in (where_ p d l) h) as [_ F].
    { apply (order_by_head tie). now rewrite O. }
    rewrite Forall_forall in F. apply F in I.
    now rewrite sorter_insert_older by (eapply text_lt_le_trans; eassumption).
Qed.

End SorterAppend.

(** *** Rowids *)

Lemma last_rowid_lt (l : list Row) (b m : Z) :
  Forall (fun r => id r < b) l -> last_rowid l = Some m -> m < b.
Proof.
  intros F. revert m. induction F as [| r l Hr F IH]; intros m; simpl; [discriminate |].
  destruct (last_rowid l) as [m' |].
  - intros [= <-]. specialize (IH m' eq_refl). lia.
  - now intros [= <-].
Qed.

(** A new rowid is handed out exactly when the largest rowid was never
    reached. *)
Lemma new_rowid_Ok_iff (t : Table) :
  (exists i, new_rowid t = Ok i)
  <-> Forall (fun r => id r < MAX_ROWID) (rows t) /\ seq t <> MAX_ROWID.
Proof.
  unfold new_rowid.
  destruct (last_rowid (rows t)) as [m |] eqn:E.
  - destruct (Z.leb_spec MAX_ROWID m) as [G | L].
    + rewrite Z.geb_leb, (proj2 (Z.leb_le _ _) G).
      split; [intros [i H]; discriminate |].
      intros [F _]. pose proof (last_rowid_lt _ _ _ F E). lia.
    + rewrite Z.geb_leb, (proj2 (Z.leb_gt _ _) L).
      destruct (Z.eqb_spec (seq t) MAX_ROWID) as [Q | Q].
      * split; [intros [i H]; discriminate | tauto].
      * split; [| eauto]. intros _. split; trivial.
        eapply Forall_impl; [| apply (last_rowid_Some _ _ E)].
        simpl. intros; lia.
  - apply last_rowid_None in E. rewrite E.
    destruct (Z.eqb_spec (seq t) MAX_ROWID) as [Q | Q].
    + split; [intros [i H]; discriminate | tauto].
    + split; eauto.
Qed.

(** On a table whose ids are not above the sequence, the new rowid is the
    sequence plus one. *)
Lemma new_rowid_next (t : Table) (i : Z) :
  Forall (fun r => id r <= seq t) (rows t) -> 0 <= seq t ->
  new_rowid t = Ok i -> i = seq t + 1.
Proof.
  intros F S. unfold new_rowid.
  destruct (last_rowid (rows t)) as [m |] eqn:E.
  - assert (m < seq t + 1) as L.
    { apply (last_rowid_lt (rows t)); trivial.
      eapply Forall_impl; [| exact F]. simpl. intros; lia. }
    destruct (m >=? MAX_ROWID)%Z; [discriminate |].
    destruct (seq t =? MAX_ROWID)%Z; [discriminate |].
    intros [= <-]. lia.
  - destruct (seq t =? MAX_ROWID)%Z; [discriminate |].
    intros [= <-]. lia.
Qed.

Lemma not_full_iff (db : Db) :
  ~ full db
  <-> Forall (fun r => id r < MAX_ROWID) (rows_of db) /\ seq_of db <> MAX_ROWID.
Proof.
  unfold full. split.
  - intros N. split; [| tauto].
    apply Forall_forall. intros r I.
    destruct (Z.lt_ge_cases (id r) MAX_ROWID) as [L | G]; trivial.
    exfalso. apply N. right. apply Exists_exists. eauto.
  - intros [F S] [Q | E]; [contradiction |].
    apply Exists_exists in E as (r & I & G).
    rewrite Forall_forall in F. apply F in I. lia.
Qed.

End More.

(* ================================================================== *)
(** ** Further lemmas: what the calls keep *)
(* ================================================================== *)

Module Keeps.
Import PyDatetime Sqlite Wellness Calls TextOrder Query Facts Runs IsoOrder More.

Lemma sorted_snoc (l : list Z) (i : Z) :
  StronglySorted Z.lt l -> Forall (fun j => j < i) l ->
  StronglySorted Z.lt (l ++ [i])%list.
Proof.
  induction 1 as [| j l S IH F]; intros B; simpl.
  - repeat constructor.
  - inversion B; subst. constructor; [auto |].
    apply Forall_app. split; trivial. repeat constructor. lia.
Qed.

Lemma init_db_well_formed (db : Db) :
  well_formed db -> well_formed (after init_db db).
Proof.
  unfold well_formed. now rewrite init_db_rows, init_db_seq.
Qed.

(** [save_plan] keeps the table well formed, whether it returns or
    raises. *)
Lemma save_plan_well_formed (env : Env) (p text : string)
    (day src : option string) (db : Db) :
  well_formed db -> well_formed (after (save_plan env p text day src) db).
Proof.
  intros (S & B & N). unfold after.
  destruct (save_plan env p text day src db) as [[i | e] db'] eqn:E; simpl.
  - apply save_plan_Ok in E as (R & F & L & Q).
    unfold well_formed. rewrite R, Q, map_app. simpl. repeat split.
    + apply sorted_snoc; trivial.
      apply Forall_map. exact F.
    + apply Forall_app. split.
      * rewrite Forall_forall in *. intros r I.
        specialize (B r I). specialize (F r I). simpl in *. lia.
      * repeat constructor; simpl; lia.
    + lia.
  - apply save_plan_Raise in E as [_ ->].
    apply init_db_well_formed. now repeat split.
Qed.

Lemma run_op_well_formed (tie : Row -> Row -> bool) (o : Op) (db : Db) :
  well_formed db -> well_formed (run_op tie o db).
Proof.
  intros W. destruct o as [| c | env p day]; simpl.
  - now apply init_db_well_formed.
  - now apply save_plan_well_formed.
  - rewrite get_plans_after. now apply init_db_well_formed.
Qed.

(** On a well-formed table the id that [save_plan] returns is the sequence
    plus one. *)
Lemma save_plan_next (env : Env) (p text : string) (day src : option string)
    (db db' : Db) (i : Z) :
  well_formed db ->
  save_plan env p text day src db = (Ok i, db') -> i = seq_of db + 1.
Proof.
  intros (_ & B & N). unfold save_plan, bind, insert.
  destruct (init_db_run db) as (t & -> & R & S).
  destruct (new_rowid t) as [j | e] eqn:E; [| discriminate].
  intros [= <- _]. rewrite <- S.
  apply new_rowid_next; trivial; rewrite ?R, ?S; trivial.
  eapply Forall_impl; [| exact B]. simpl. intros; lia.
Qed.

(** [save_plan] on a full table. *)
Lemma save_plan_full (env : Env) (p text : string) (day src : option string)
    (db : Db) :
  full db ->
  save_plan env p text day src db = (Raise SQLITE_FULL, after init_db db).
Proof.
  intros Fu.
  destruct (save_plan env p text day src db) as [[i | e] db'] eqn:E.
  - exfalso. revert E. unfold save_plan, bind, insert.
    destruct (init_db_run db) as (t & -> & R & S).
    destruct (new_rowid t) as [j | e] eqn:N; [| discriminate].
    intros _. assert (exists j, new_rowid t = Ok j) as X by eauto.
    apply new_rowid_Ok_iff in X. rewrite R, S in X.
    now apply not_full_iff in X.
  - apply save_plan_Raise in E as [-> ->]. reflexivity.
Qed.

(** On a full table every call leaves the file as [init_db] does. *)
Lemma run_op_full (tie : Row -> Row -> bool) (o : Op) (db : Db) :
  full db -> run_op tie o db = after init_db db.
Proof.
  intros Fu. destruct o as [| c | env p day]; simpl.
  - reflexivity.
  - unfold after at 1, call. now rewrite save_plan_full.
  - apply get_plans_after.
Qed.

Lemma init_db_full (db : Db) : full db -> full (after init_db db).
Proof. unfold full. now rewrite init_db_rows, init_db_seq. Qed.

(** The rows after a call: those before, and the row of the call when it is
    a save that returned. *)
Lemma run_op_rows (tie : Row -> Row -> bool) (o : Op) (db : Db) :
  rows_of (run_op tie o db) = rows_of db
  \/ exists c i, o = OpSave c
                 /\ rows_of (run_op tie o db) = (rows_of db ++ [row_saved c i])%list.
Proof.
  destruct o as [| c | env p day]; simpl.
  - left. apply init_db_rows.
  - unfold after. destruct (call c db) as [[i | e] db'] eqn:E; simpl.
    + right. apply call_Ok in E as (R & _). eauto.
    + left. now apply call_Raise in E as (R & _).
  - left. rewrite get_plans_after. apply init_db_rows.
Qed.


Lemma append_length (s s' : string) :
  String.length (s ++ s') = (String.length s + String.length s')%nat.
Proof. induction s as [| c s IH]; simpl; congruence. Qed.

Lemma digits_length (k : nat) (n : Z) : String.length (digits k n) = k.
Proof. induction k as [| k IH]; simpl; congruence. Qed.

Lemma lex_Eq (c c' : comparison) : lex c c' = Eq -> c = Eq /\ c' = Eq.
Proof. destruct c; simpl; intros H; try discriminate; auto. Qed.

End Keeps.

(* ================================================================== *)
(** ** Further properties of the store *)
(* ================================================================== *)

Import More Keeps.

(** *** The write path *)

(** X1: a call of [save_plan] that returns has appended one row and touched
    no other: the rows of the file are those before, in place, and then the
    row of the call, with the id that was returned, the arguments as they
    were given ("agent" and the empty string for a source and a day that
    were left out), and the UTC clock in [isoformat]; the id is above every
    id of the rows before. *)
Theorem save_appends_one_row (env : Env) (p text : string)
    (day src : option string) (db db' : Db) (i : Z) :
  save_plan env p text day src db = (Ok i, db') ->
  rows_of db' =
    (rows_of db ++ [mkRow i p text (isoformat (utc_now env))
                          (match src with Some s => s | None => "agent" end)
                          (match day with Some d => d | None => "" end)])%list
  /\ Forall (fun r => id r < i) (rows_of db).
Proof.
  intros S. apply save_plan_Ok in S as (R & F & _). now split.
Qed.

Lemma save_appends_one_row_witness :
  rows_of (after (save_plan Samples.monday_noon_half "p2" "B" None (Some "chat"))
                 Samples.one_plan)
  = [mkRow 1 "p1" "old" "2024-06-03T12:00:00+00:00" "agent" "Monday";
     mkRow 2 "p2" "B" "2024-06-03T12:00:00.500000+00:00" "chat" ""].
Proof.
  apply (save_appends_one_row Samples.monday_noon_half "p2" "B" None (Some "chat")
           Samples.one_plan _ 2 eq_refl).
Defined.

(** X2: on a full table, whose sequence or one of whose ids has reached
    the largest rowid, [save_plan] returns no id and adds no row: the ids do
    not wrap around and none is handed out twice. *)
Theorem full_table_takes_no_row (env : Env) (p text : string)
    (day src : option string) (db : Db) :
  full db ->
  (forall i db', save_plan env p text day src db <> (Ok i, db'))
  /\ rows_of (after (save_plan env p text day src) db) = rows_of db
  /\ seq_of (after (save_plan env p text day src) db) = seq_of db.
Proof.
  intros Fu. rewrite (save_plan_full env p text day src db Fu).
  repeat split.
  - intros i db'. discriminate.
  - unfold after at 1. rewrite save_plan_full by trivial. apply init_db_rows.
  - unfold after at 1. rewrite save_plan_full by trivial. apply init_db_seq.
Qed.

Lemma full_table_takes_no_row_witness :
  rows_of (after (save_plan Samples.monday_noon "p1" "text" None None)
                 Samples.full_with_plan)
  = rows_of Samples.full_with_plan.
Proof.
  apply (full_table_takes_no_row Samples.monday_noon "p1" "text" None None
           Samples.full_with_plan).
  now left.
Defined.

(** X3: a full table stays full: after any sequence of calls of [init_db],
    [save_plan] and [get_plans] on a full table the table is full and its
    rows are those it had; no later save adds a row. *)
Theorem full_stays_full (tie : Row -> Row -> bool) (os : list Op) :
  forall db : Db,
  full db ->
  full (run_ops tie os db) /\ rows_of (run_ops tie os db) = rows_of db.
Proof.
  induction os as [| o os IH]; intros db Fu; simpl; [now split |].
  rewrite (run_op_full tie o db Fu).
  destruct (IH (after init_db db) (init_db_full db Fu)) as [F R].
  split; trivial. now rewrite R, init_db_rows.
Qed.

Lemma full_stays_full_witness :
  full (run_ops scan_order Samples.mixed_calls Samples.full_with_plan)
  /\ rows_of (run_ops scan_order Samples.mixed_calls Samples.full_with_plan)
     = rows_of Samples.full_with_plan.
Proof.
  apply (full_stays_full scan_order Samples.mixed_calls Samples.full_with_plan).
  now left.
Defined.

(** X4: on a well-formed table the ids that a sequence of saves returns are
    consecutive: the sequence of the table plus 1, plus 2, and so on; on a
    new file they are 1, 2, 3, ... *)
Theorem ids_consecutive (cs : list SaveCall) :
  forall (db db' : Db) (rs : list (result Z)),
  well_formed db ->
  run_saves cs db = (rs, db') ->
  returned_ids rs
  = map (fun k => seq_of db + Z.of_nat k)
        (List.seq 1 (List.length (returned_ids rs))).
Proof.
  induction cs as [| c cs IH]; intros db db' rs W; simpl.
  - now intros [= <- <-].
  - destruct (call c db) as [r db1] eqn:C.
    destruct (run_saves cs db1) as [rs' db2] eqn:R.
    intros [= <- <-].
    assert (well_formed db1) as W1.
    { replace db1 with (after (call c) db) by (unfold after; now rewrite C).
      now apply save_plan_well_formed. }
    specialize (IH db1 db2 rs' W1 R).
    destruct r as [i | e]; simpl.
    + pose proof (save_plan_next _ _ _ _ _ _ _ _ W C) as ->.
      apply call_Ok in C as (_ & _ & _ & Q).
      f_equal.
      rewrite IH at 1. rewrite Q, <- (seq_shift _ 1), map_map.
      apply map_ext. intros k. lia.
    + apply call_Raise in C as (_ & Q). now rewrite <- Q.
Qed.

Lemma ids_consecutive_witness :
  returned_ids (fst (run_saves Samples.two_calls Samples.one_plan)) = [2; 3].
Proof.
  apply (ids_consecutive Samples.two_calls Samples.one_plan
           (snd (run_saves Samples.two_calls Samples.one_plan))
           (fst (run_saves Samples.two_calls Samples.one_plan))).
  - unfold well_formed. simpl. repeat constructor; simpl; lia.
  - apply surjective_pairing.
Defined.

(** *** What every call keeps *)

(** X5: the three functions keep the table well formed: after any sequence
    of calls of [init_db], [save_plan] and [get_plans] on a well-formed
    file, the rows are in the order of their ids, the ids are positive,
    pairwise different and not above the sequence. *)
Theorem well_formed_kept (tie : Row -> Row -> bool) (os : list Op) :
  forall db : Db,
  well_formed db ->
  well_formed (run_ops tie os db) /\ primary_key (run_ops tie os db).
Proof.
  assert (forall db, well_formed db -> well_formed (run_ops tie os db)) as K.
  { induction os as [| o os IH]; intros db W; simpl; trivial.
    apply IH. now apply run_op_well_formed. }
  intros db W. split; [now apply K |].
  destruct (K db W) as (S & _). now apply sorted_lt_NoDup.
Qed.

Lemma well_formed_kept_witness :
  well_formed (run_ops scan_order Samples.mixed_calls Samples.no_table).
Proof.
  apply (well_formed_kept scan_order Samples.mixed_calls Samples.no_table).
  unfold well_formed. simpl. repeat constructor. lia.
Defined.

(** X6: the table only grows at its end: after any sequence of calls the
    rows that the file held are still there, unchanged and in place, and
    every further row is the row of a [save_plan] call of the sequence. *)
Theorem append_only (tie : Row -> Row -> bool) (os : list Op) :
  forall db : Db,
  exists l,
    rows_of (run_ops tie os db) = (rows_of db ++ l)%list
    /\ Forall (fun r => exists c i, In (OpSave c) os /\ r = row_saved c i) l.
Proof.
  induction os as [| o os IH]; intros db; simpl.
  - exists []. split; [now rewrite app_nil_r | constructor].
  - destruct (IH (run_op tie o db)) as (l & R & F).
    assert (Forall (fun r => exists c i,
                      (o = OpSave c \/ In (OpSave c) os) /\ r = row_saved c i) l)
      as F'.
    { eapply Forall_impl; [| exact F]. simpl. intros r (c & i & I & E). eauto. }
    destruct (run_op_rows tie o db) as [Q | (c & i & -> & Q)].
    + exists l. rewrite R, Q. now split.
    + exists (row_saved c i :: l). rewrite R, Q, <- app_assoc. split; trivial.
      constructor; trivial. exists c, i. auto.
Qed.

(** X7: calls that only read ([init_db], [get_plans]) leave the rows of
    the file as they are, and with them what every [get_plans] returns
    afterwards. *)
Theorem reads_change_no_result (tie tie' : Row -> Row -> bool) (os : list Op)
    (env : Env) (p : string) (day : option string) :
  forall db : Db,
  Forall reads_only os ->
  rows_of (run_ops tie' os db) = rows_of db
  /\ returned (get_plans tie env p day) (run_ops tie' os db)
     = returned (get_plans tie env p day) db.
Proof.
  assert (forall db, Forall reads_only os ->
                     rows_of (run_ops tie' os db) = rows_of db) as K.
  { induction os as [| o os IH]; intros db F; simpl; trivial.
    inversion F as [| ? ? Ro Fo]; subst. rewrite IH by trivial.
    destruct (run_op_rows tie' o db) as [Q | (c & i & -> & _)]; trivial.
    destruct Ro. }
  intros db F. split; [now apply K |].
  apply get_plans_ext. now rewrite K.
Qed.

Lemma reads_change_no_result_witness :
  returned (get_plans scan_order Samples.monday_noon "p1" (Some "Monday"))
           (run_ops scan_order Samples.read_calls Samples.one_plan)
  = returned (get_plans scan_order Samples.monday_noon "p1" (Some "Monday"))
             Samples.one_plan.
Proof.
  apply (reads_change_no_result scan_order scan_order Samples.read_calls
           Samples.monday_noon "p1" (Some "Monday") Samples.one_plan).
  repeat constructor.
Defined.

(** *** What a save does to the read path *)



(** X9: a [save_plan] for (p, d) whose [created_at] is strictly before that
    of a row that the file holds for (p, d) does not show: [get_plans(p,
    d)] returns what it returned before, for every tie-break. *)
Theorem stale_save_does_not_show (tie : Row -> Row -> bool) (env env' : Env)
    (p t : string) (day src : option string) (db db' : Db) (i : Z) (x : Row) :
  save_plan env p t day src db = (Ok i, db') ->
  In x (rows_of db) -> profile x = p -> day_of_the_week x = stored_day day ->
  text_lt (isoformat (utc_now env)) (created_at x) ->
  returned (get_plans tie env' p (Some (stored_day day))) db'
  = returned (get_plans tie env' p (Some (stored_day day))) db.
Proof.
  intros S I P D L. apply save_plan_Ok in S as (R & _).
  rewrite !get_plans_returned, R. simpl.
  rewrite (query_snoc_older tie (rows_of db) p (stored_day day) _ x); trivial.
  apply where_In. auto.
Qed.

Lemma stale_save_does_not_show_witness :
  returned (get_plans scan_order Samples.monday_noon "p1" (Some "Monday"))
    (after (save_plan Samples.monday_1159 "p1" "text-A" (Some "Monday") None)
           Samples.one_plan)
  = returned (get_plans scan_order Samples.monday_noon "p1" (Some "Monday"))
             Samples.one_plan.
Proof.
  apply (stale_save_does_not_show scan_order Samples.monday_1159
           Samples.monday_noon "p1" "text-A" (Some "Monday") None
           Samples.one_plan _ 2
           (mkRow 1 "p1" "old" "2024-06-03T12:00:00+00:00" "agent" "Monday")
           eq_refl).
  - now left.
  - reflexivity.
  - reflexivity.
  - reflexivity.
Defined.



(** *** The timestamps that are stored *)

(** X11: two clock readings give the same [created_at] only when they are
    the same reading, to the microsecond: [isoformat] is one-to-one on the
    datetimes that exist. *)
Theorem isoformat_injective (a b : datetime) :
  valid a -> valid b -> isoformat a = isoformat b -> a = b.
Proof.
  intros Va Vb E.
  pose proof (isoformat_compare a b Va Vb) as C.
  rewrite E, compare_refl in C. symmetry in C. unfold chrono_compare in C.
  repeat (apply lex_Eq in C as [?%Z.compare_eq C]).
  apply Z.compare_eq in C.
  destruct a, b. simpl in *. congruence.
Qed.

Lemma isoformat_injective_witness :
  utc_now Samples.monday_noon = local_now Samples.monday_noon.
Proof.
  apply (isoformat_injective (utc_now Samples.monday_noon)
           (local_now Samples.monday_noon)).
  - now apply validb_valid.
  - now apply validb_valid.
  - reflexivity.
Defined.

(** X12: the [created_at] that [save_plan] stores has 25 characters when
    the microseconds of the clock are zero and 32 characters otherwise. *)
Theorem isoformat_length (d : datetime) :
  valid d ->
  String.length (isoformat d)
  = if (microsecond d =? 0)%Z then 25%nat else 32%nat.
Proof.
  intros (Y & M & D & H & Mi & S & U).
  pose proof (days_in_month_le (year d) (month d)).
  unfold isoformat, fraction.
  rewrite !(fmt_0d_digits 4), !(fmt_0d_digits 2) by (simpl; lia).
  destruct (microsecond d =? 0)%Z.
  - rewrite !append_length, !digits_length. reflexivity.
  - rewrite fmt_0d_digits by (simpl; lia).
    rewrite !append_length, !digits_length. reflexivity.
Qed.

Lemma isoformat_length_witness :
  String.length (isoformat (utc_now Samples.monday_noon_half)) = 32%nat.
Proof.
  apply (isoformat_length (utc_now Samples.monday_noon_half)).
  now apply validb_valid.
Defined.
